(** * ForexVision: the dual-store persistence class [DB_Utils]

    A shallow embedding of [src/data-collection/dbutils.py].  The class keeps
    one SQLite connection and one MongoDB collection handle; its methods are
    embedded as computations over an explicit [world] (the two stores, the
    lines printed so far, and the sequence of lock and store events), which
    return either a raised exception or a value.

    The engines themselves (sqlite3, pymongo) are not part of the repository.
    What the class relies upon is modelled in [Module Sqlite] and
    [Module Mongo]: an INSERT with primary-key and NOT NULL checks, commit and
    rollback of the connection's transaction, and a document insert.  The
    evaluation of a SELECT text and of a Mongo cursor is left to the fields
    of an [engine] record. *)

From Stdlib Require Import ZArith QArith.
From stdpp Require Import gmap strings list fin_maps pretty.

Local Open Scope string_scope.
Local Open Scope list_scope.
Local Open Scope Z_scope.

(** ** Python values and exceptions *)

(** The scalars a record, a document or a sort direction is made of.  A float
    is carried as the rational it denotes; an integer is assumed to fit the
    64 bits both stores accept.  [VObjectId] is the identifier the Mongo
    driver generates. *)
Inductive value :=
| VNone
| VInt (n : Z)
| VFloat (x : Q)
| VStr (s : string)
| VObjectId (n : N).

#[global] Instance Q_eq_dec : EqDecision Q.
Proof. solve_decision. Defined.

#[global] Instance value_eq_dec : EqDecision value.
Proof. solve_decision. Defined.

Inductive exn_class :=
| AttributeError
| ValueError
| IndexError
| TypeError
| IntegrityError
| ProgrammingError
| OperationalError
| PyMongoError.

#[global] Instance exn_class_eq_dec : EqDecision exn_class.
Proof. solve_decision. Defined.

(** An exception: its class and its message. *)
Record exn := Exn { exn_cls : exn_class; exn_msg : string }.

#[global] Instance exn_eq_dec : EqDecision exn.
Proof. solve_decision. Defined.

(** A tuple of positional values, as passed to the insert methods and as
    fetched from a SQLite cursor. *)
Definition row := list value.

(** A Python dict with string keys. *)
Abbreviation pydict := (gmap string value).

(** [{k: v for k, v in pairs}] and [dict(pairs)]: a later pair overwrites an
    earlier one with the same key. *)
Definition dict_of_pairs (pairs : list (string * value)) : pydict :=
  fold_left (fun d kv => <[kv.1 := kv.2]> d) pairs ∅.

(** [zip(a, b)]: stops at the shorter argument. *)
Fixpoint zip {A B : Type} (a : list A) (b : list B) : list (A * B) :=
  match a, b with
  | x :: a', y :: b' => (x, y) :: zip a' b'
  | _, _ => []
  end.

(** A record as [find_records] may hand it back: the docstring speaks of
    tuples for SQLite and dicts for MongoDB. *)
Inductive record :=
| Tuple (vs : row)
| Dict (d : pydict).

Definition is_dict (r : record) : bool :=
  match r with Dict _ => true | Tuple _ => false end.

(** The [query] argument of [find_records]: a WHERE clause string for SQLite,
    a filter dict for MongoDB.  Python does not stop a caller from passing
    either to either back end. *)
Inductive predicate :=
| PredStr (s : string)
| PredDict (d : pydict).

(** The [projection] argument: a list of columns or a dict; the pairs of a
    dict are kept in insertion order. *)
Inductive projection :=
| ProjList (cols : list string)
| ProjDict (d : list (string * value)).

Definition sort_spec := list (string * value).

(** Truthiness, as tested by [if x:]. *)
Definition truthy_str (s : string) : bool :=
  match s with EmptyString => false | _ => true end.

Definition truthy_predicate (q : option predicate) : bool :=
  match q with
  | None => false
  | Some (PredStr s) => truthy_str s
  | Some (PredDict d) => bool_decide (d ≠ ∅)
  end.

Definition truthy_projection (p : option projection) : bool :=
  match p with
  | None | Some (ProjList []) | Some (ProjDict []) => false
  | _ => true
  end.

Definition truthy_list {A : Type} (l : option (list A)) : bool :=
  match l with
  | None | Some [] => false
  | _ => true
  end.

Definition truthy_int (n : option Z) : bool :=
  match n with
  | None | Some 0 => false
  | _ => true
  end.

(** [v == n] for an integer literal [n]: an int or a float of that value. *)
Definition py_eq_int (v : value) (n : Z) : bool :=
  match v with
  | VInt m => m =? n
  | VFloat x => Qeq_bool x (inject_Z n)
  | _ => false
  end.

(** [v == s] for a string literal [s]. *)
Definition py_eq_str (v : value) (s : string) : bool :=
  match v with
  | VStr t => bool_decide (t = s)
  | _ => false
  end.

(** ** The stores *)

Inductive lock := sql_lock | mongo_lock.

#[global] Instance lock_eq_dec : EqDecision lock.
Proof. solve_decision. Defined.

Inductive sql_op :=
| OpConnect
| OpCreateTable
| OpPragma (p : string)
| OpInsert
| OpSelect
| OpCommit
| OpRollback.

#[global] Instance sql_op_eq_dec : EqDecision sql_op.
Proof. solve_decision. Defined.

(** What a thread does to the shared resources, in order. *)
Inductive event :=
| EvAcquire (l : lock)
| EvRelease (l : lock)
| EvSqlite (op : sql_op)
| EvMongo.

#[global] Instance event_eq_dec : EqDecision event.
Proof. solve_decision. Defined.

(** The lines written by [print], with the interpolated fields kept apart. *)
Inductive message :=
| MsgMongoConnected
| MsgMongoConnectionError (e : exn)
| MsgDuplicateEntry (d0 d1 : value)
| MsgSqliteInsertError (e : exn)
| MsgMongoInsertError (e : exn)
| MsgSqliteBulkInsertError (e : exn)
| MsgMongoFindError (e : exn)
| MsgSqliteFindError (e : exn).

(** The statements of [__set_mode_specifics], as syntax trees. *)
Record column := Column { col_name : string; col_type : string; col_not_null : bool }.

(** [CREATE TABLE IF NOT EXISTS ct_table (ct_columns, PRIMARY KEY (ct_primary_key))] *)
Record create_table := CreateTable {
  ct_table : string;
  ct_columns : list column;
  ct_primary_key : list string
}.

(** [INSERT INTO ins_table (ins_columns) VALUES (?, ..., ?)], one placeholder
    per column. *)
Record insert_stmt := InsertStmt {
  ins_table : string;
  ins_columns : list string
}.

Record table := Table {
  t_columns : list column;
  t_primary_key : list string;
  t_rows : list row
}.

(** A database file: its tables by name. *)
Abbreviation database := (gmap string table).

(** The cursor a Mongo find is chained into before [list(cursor)] runs it. *)
Record mongo_cursor := MongoCursor {
  cur_filter : predicate;
  cur_projection : option projection;
  cur_sort : option sort_spec;
  cur_limit : option Z
}.

Record world := World {
  sq_disk : database;        (* the committed content of [{db_name}.db] *)
  sq_conn : database;        (* what the connection sees: [sq_disk] plus the
                                changes of its open transaction *)
  mg_up : bool;              (* the remote server answers *)
  mg_docs : list pydict;     (* the documents of the collection *)
  mg_next_id : N;            (* the next generated [_id] *)
  stdout : list message;
  trace : list event
}.

(** The parts of the engines and of Python that the class passes texts and
    dicts to, and which are not modelled further. *)
Record engine := Engine {
  (* the outcome of running a SELECT text: the column names of the cursor's
     [description] and the fetched rows *)
  sqlite_select : string → database → exn + (list string * list row);
  (* the outcome of [list(cursor)] on the collection's documents *)
  mongo_run : mongo_cursor → list pydict → exn + list pydict;
  (* [MongoClient(uri, ...)], which rejects a malformed URI *)
  mongo_client : string → option exn;
  (* [sqlite3.connect(path)], which rejects a path it cannot open *)
  sqlite_open : string → option exn;
  (* the parsing of a CREATE TABLE or INSERT text, which rejects a table
     name that is not an SQL identifier *)
  sqlite_parse : string → option exn;
  (* [str(d)] of a dict *)
  str_dict : pydict → string
}.

(** ** Computations

    A method runs on a world and ends in a raised exception or a value; the
    world it leaves is kept in both cases, as in Python. *)
Definition M (A : Type) : Type := world → (exn + A) * world.

Definition ret {A : Type} (a : A) : M A := λ w, (inr a, w).

Definition raise {A : Type} (e : exn) : M A := λ w, (inl e, w).

Definition bind {A B : Type} (m : M A) (k : A → M B) : M B :=
  λ w, match m w with
       | (inr a, w') => k a w'
       | (inl e, w') => (inl e, w')
       end.

#[global] Instance M_ret : MRet M := @ret.
#[global] Instance M_bind : MBind M := λ A B k m, bind m k.

(** [try: body  except Exception as e: handler e] *)
Definition try_except {A : Type} (body : M A) (handler : exn → M A) : M A :=
  λ w, match body w with
       | (inr a, w') => (inr a, w')
       | (inl e, w') => handler e w'
       end.

Definition set_sqlite (disk conn : database) (w : world) : world :=
  World disk conn (mg_up w) (mg_docs w) (mg_next_id w) (stdout w) (trace w).

Definition set_mongo (docs : list pydict) (next : N) (w : world) : world :=
  World (sq_disk w) (sq_conn w) (mg_up w) docs next (stdout w) (trace w).

Definition emit (ev : event) (w : world) : world :=
  World (sq_disk w) (sq_conn w) (mg_up w) (mg_docs w) (mg_next_id w)
        (stdout w) (trace w ++ [ev]).

Definition print (m : message) : M unit :=
  λ w, (inr tt,
        World (sq_disk w) (sq_conn w) (mg_up w) (mg_docs w) (mg_next_id w)
              (stdout w ++ [m]) (trace w)).

(** [with l: body]: the lock is released on every way out of the body. *)
Definition with_lock {A : Type} (l : lock) (body : M A) : M A :=
  λ w, let (r, w') := body (emit (EvAcquire l) w) in (r, emit (EvRelease l) w').

(** [self.name], for an attribute that some path may not have assigned. *)
Definition getattr {A : Type} (name : string) (o : option A) : M A :=
  match o with
  | Some a => ret a
  | None => raise (Exn AttributeError name)
  end.

(** [data[i]] *)
Definition index (data : row) (i : nat) : M value :=
  match data !! i with
  | Some v => ret v
  | None => raise (Exn IndexError "tuple index out of range")
  end.

(** ** The SQLite connection, as the class drives it *)
Module Sqlite.

(** The cells of a row under the primary-key columns. *)
Definition key_of (cols : list column) (pk : list string) (r : row) : row :=
  (filter (λ cv, col_name cv.1 ∈ pk) (zip cols r)).*2.

Definition violates_not_null (cols : list column) (r : row) : bool :=
  existsb (λ cv, col_not_null cv.1 && bool_decide (cv.2 = VNone)) (zip cols r).

Definition key_taken (t : table) (r : row) : bool :=
  bool_decide (key_of (t_columns t) (t_primary_key t) r
               ∈ key_of (t_columns t) (t_primary_key t) <$> t_rows t).

(** One INSERT with its parameters bound: the statement is prepared against
    the table, the parameters are counted against the placeholders, and the
    row is checked against NOT NULL and the primary key.  The statement has
    to name the table's columns in their order, as both statements of the
    class do for the table they create.  Cells are kept and compared as they
    are passed, which is what SQLite does for a text under a TEXT column and
    a float under a REAL column; the conversion it applies to a cell of
    another kind is not modelled. *)
Definition insert_row (st : insert_stmt) (data : row) (db : database)
  : exn + database :=
  match db !! ins_table st with
  | None => inl (Exn OperationalError "no such table")
  | Some t =>
      if bool_decide (ins_columns st ≠ col_name <$> t_columns t) then
        inl (Exn OperationalError "table has no such column")
      else if bool_decide (length data ≠ length (ins_columns st)) then
        inl (Exn ProgrammingError "Incorrect number of bindings supplied")
      else if violates_not_null (t_columns t) data then
        inl (Exn IntegrityError "NOT NULL constraint failed")
      else if key_taken t data then
        inl (Exn IntegrityError "UNIQUE constraint failed")
      else
        inr (<[ins_table st :=
                 Table (t_columns t) (t_primary_key t) (t_rows t ++ [data])]> db)
  end.

(** [sqlite3.connect(path)]: a new connection sees the committed content. *)
Definition connect (E : engine) (path : string) : M unit :=
  λ w, match sqlite_open E path with
       | Some e => (inl e, w)
       | None => (inr tt, emit (EvSqlite OpConnect) (set_sqlite (sq_disk w) (sq_disk w) w))
       end.

Definition create_if_absent (ct : create_table) (db : database) : database :=
  match db !! ct_table ct with
  | Some _ => db
  | None => <[ct_table ct := Table (ct_columns ct) (ct_primary_key ct) []]> db
  end.

(** [cursor.execute] of a CREATE TABLE IF NOT EXISTS, outside a transaction:
    it takes effect at once. *)
Definition execute_create (E : engine) (ct : create_table) : M unit :=
  λ w, match sqlite_parse E (ct_table ct) with
       | Some e => (inl e, w)
       | None =>
           (inr tt, emit (EvSqlite OpCreateTable)
                      (set_sqlite (create_if_absent ct (sq_disk w))
                                  (create_if_absent ct (sq_conn w)) w))
       end.

Definition execute_pragma (p : string) : M unit :=
  λ w, (inr tt, emit (EvSqlite (OpPragma p)) w).

(** [cursor.execute(insert, data)]: the row joins the open transaction. *)
Definition execute_insert (st : insert_stmt) (data : row) : M unit :=
  λ w, let w1 := emit (EvSqlite OpInsert) w in
       match insert_row st data (sq_conn w1) with
       | inl e => (inl e, w1)
       | inr db => (inr tt, set_sqlite (sq_disk w1) db w1)
       end.

(** [cursor.executemany(insert, records)]: one INSERT per record, stopping
    at the first that raises; the rows before it stay in the transaction. *)
Fixpoint executemany (st : insert_stmt) (records : list row) : M unit :=
  match records with
  | [] => mret tt
  | data :: records' => execute_insert st data ≫= λ _, executemany st records'
  end.

Definition commit : M unit :=
  λ w, (inr tt, emit (EvSqlite OpCommit) (set_sqlite (sq_conn w) (sq_conn w) w)).

(** [conn.rollback()], on the open connection: the world has no state for a
    connection that was closed. *)
Definition rollback : M unit :=
  λ w, (inr tt, emit (EvSqlite OpRollback) (set_sqlite (sq_disk w) (sq_disk w) w)).

(** [cursor.execute(text)] of a SELECT, then [cursor.description] and
    [cursor.fetchall()]. *)
Definition execute_select (E : engine) (text : string)
  : M (list string * list row) :=
  λ w, let w1 := emit (EvSqlite OpSelect) w in
       (sqlite_select E text (sq_conn w1), w1).

End Sqlite.

(** ** The Mongo collection, as the class drives it *)
Module Mongo.

Definition unreachable : exn := Exn PyMongoError "ServerSelectionTimeoutError".

(** [MongoClient(uri, ..., connect=False)] *)
Definition client (E : engine) (uri : string) : M unit :=
  λ w, match mongo_client E uri with
       | Some e => (inl e, w)
       | None => (inr tt, w)
       end.

(** [client.admin.command('ping')] *)
Definition ping : M unit :=
  λ w, let w1 := emit EvMongo w in
       if mg_up w1 then (inr tt, w1) else (inl unreachable, w1).

(** [collection.insert_one(document)]: a document without [_id] is given a
    generated one; an [_id] already in the collection is refused. *)
Definition insert_one (document : pydict) : M unit :=
  λ w, let w1 := emit EvMongo w in
       if mg_up w1 then
         match document !! "_id" with
         | None =>
             (inr tt, set_mongo (mg_docs w1 ++ [<["_id" := VObjectId (mg_next_id w1)]> document])
                                (N.succ (mg_next_id w1)) w1)
         | Some i =>
             if bool_decide (Some i ∈ (λ d : pydict, d !! "_id") <$> mg_docs w1) then
               (inl (Exn PyMongoError "DuplicateKeyError"), w1)
             else
               (inr tt, set_mongo (mg_docs w1 ++ [document]) (mg_next_id w1) w1)
         end
       else (inl unreachable, w1).

(** [list(cursor)] *)
Definition list_cursor (E : engine) (c : mongo_cursor) : M (list pydict) :=
  λ w, let w1 := emit EvMongo w in
       if mg_up w1 then (mongo_run E c (mg_docs w1), w1) else (inl unreachable, w1).

End Mongo.

(** ** The class *)

(** An instance.  The attributes that only some path assigns are optional:
    reading one that was never assigned raises [AttributeError].  [conn] and
    [cursor] are the connection state of the world; [client] and [db] are
    only steps towards [collection]. *)
Record DB_Utils := Build_DB_Utils {
  db_name : string;
  collection_name : string;
  mode : string;
  sql_schema : option create_table;
  sql_insert_cmd : option insert_stmt;
  mongo_data_dict : option (list (string * value));
  collection : option (string * string)
}.

Definition set_specifics (schema : create_table) (cmd : insert_stmt)
    (d : list (string * value)) (self : DB_Utils) : DB_Utils :=
  Build_DB_Utils (db_name self) (collection_name self) (mode self)
                 (Some schema) (Some cmd) (Some d) (collection self).

Definition set_collection (c : string * string) (self : DB_Utils) : DB_Utils :=
  Build_DB_Utils (db_name self) (collection_name self) (mode self)
                 (sql_schema self) (sql_insert_cmd self) (mongo_data_dict self)
                 (Some c).

Definition TEXT_NOT_NULL (name : string) : column := Column name "TEXT" true.
Definition REAL_NOT_NULL (name : string) : column := Column name "REAL" true.
Definition REAL (name : string) : column := Column name "REAL" false.

Definition aux_fields : list string := ["timestamp"; "currency"; "rate"].

Definition main_fields : list string :=
  ["timestamp"; "currency"; "max"; "min"; "max_min"; "mean";
   "corr_btc"; "norm_vol"; "fd"; "insert_timestamp"].

(** The CREATE TABLE statement of the auxiliary mode (hourly data). *)
Definition aux_sql_schema (name : string) : create_table :=
  CreateTable name
    [TEXT_NOT_NULL "timestamp"; TEXT_NOT_NULL "currency"; REAL_NOT_NULL "rate"]
    ["timestamp"; "currency"].

(** The CREATE TABLE statement of the main mode (6-hour features). *)
Definition main_sql_schema (name : string) : create_table :=
  CreateTable name
    [TEXT_NOT_NULL "timestamp"; TEXT_NOT_NULL "currency";
     REAL_NOT_NULL "max"; REAL_NOT_NULL "min"; REAL_NOT_NULL "max_min";
     REAL_NOT_NULL "mean"; REAL "corr_btc"; REAL_NOT_NULL "norm_vol";
     REAL_NOT_NULL "fd"; TEXT_NOT_NULL "insert_timestamp"]
    ["timestamp"].

(** Sets schema definitions based on database mode. *)
Definition __set_mode_specifics (self : DB_Utils) : DB_Utils :=
  if bool_decide (mode self = "aux") then
    set_specifics
      (aux_sql_schema (collection_name self))
      (InsertStmt (collection_name self) aux_fields)
      ((λ k, (k, VNone)) <$> aux_fields)
      self
  else if bool_decide (mode self = "main") then
    set_specifics
      (main_sql_schema (collection_name self))
      (InsertStmt (collection_name self) main_fields)
      ((λ k, (k, VNone)) <$> main_fields)
      self
  else self.

(** [', '.join(projection)]: a list gives its items, a dict its keys. *)
Definition projection_items (p : projection) : list string :=
  match p with
  | ProjList cols => cols
  | ProjDict d => d.*1
  end.

(** The SELECT clause of [_find_sqlite]. *)
Definition select_columns (projection : option projection) : string :=
  match projection with
  | Some p => if truthy_projection projection
              then String.concat ", " (projection_items p) else "*"
  | None => "*"
  end.

(** ["DESC" if direction == -1 or direction == "DESC" else "ASC"] *)
Definition dir_str (direction : value) : string :=
  if py_eq_int direction (-1) || py_eq_str direction "DESC" then "DESC" else "ASC".

(** The ORDER BY clause of [_find_sqlite]. *)
Definition order_by_clause (sort : option sort_spec) : string :=
  match sort with
  | Some s =>
      if truthy_list sort then
        "ORDER BY " +:+
          String.concat ", " ((λ fd : string * value, fd.1 +:+ " " +:+ dir_str fd.2) <$> s)
      else ""
  | None => ""
  end.

(** The LIMIT clause of [_find_sqlite]. *)
Definition limit_clause (limit : option Z) : string :=
  match limit with
  | Some n => if truthy_int limit then "LIMIT " +:+ pretty n else ""
  | None => ""
  end.

Section DB_Utils.

Context (E : engine).

(** [f"{query}"] *)
Definition format_predicate (q : predicate) : string :=
  match q with
  | PredStr s => s
  | PredDict d => str_dict E d
  end.

(** The WHERE clause of [_find_sqlite]. *)
Definition where_clause (query : option predicate) : string :=
  match query with
  | Some q => if truthy_predicate query then "WHERE " +:+ format_predicate q else ""
  | None => ""
  end.

(** The statement text of [_find_sqlite]:
    [f"SELECT {columns} FROM {self.collection_name} {where} {order_by} {limit_clause}"] *)
Definition query_str (self : DB_Utils) (query : option predicate)
    (sort : option sort_spec) (projection : option projection)
    (limit : option Z) : string :=
  "SELECT " +:+ select_columns projection +:+ " FROM " +:+ collection_name self
    +:+ " " +:+ where_clause query +:+ " " +:+ order_by_clause sort
    +:+ " " +:+ limit_clause limit.

(** Creates SQLite database with specified schema. *)
Definition __create_sqlite_db (self : DB_Utils) : M unit :=
  Sqlite.connect E (db_name self +:+ ".db") ;;
  schema ← getattr "sql_schema" (sql_schema self);
  Sqlite.execute_create E schema ;;
  Sqlite.execute_pragma "journal_mode = WAL" ;;
  Sqlite.execute_pragma "synchronous = NORMAL".

(** Creates MongoDB connection with specified schema.  The two names are
    taken to be names the driver accepts for a database and a collection. *)
Definition __create_mongo_db (self : DB_Utils) (mongo_uri : option string)
  : M DB_Utils :=
  match mongo_uri with
  | Some uri =>
      if truthy_str uri then
        try_except
          (Mongo.client E uri ;;
           Mongo.ping ;;
           print MsgMongoConnected ;;
           mret (set_collection (db_name self, collection_name self) self))
          (λ e, print (MsgMongoConnectionError e) ;; raise e)
      else raise (Exn ValueError "MongoDB URI is required for Atlas connection")
  | None => raise (Exn ValueError "MongoDB URI is required for Atlas connection")
  end.

(** Initialize databases based on mode (auxiliary or main). *)
Definition __init__ (db_name collection_name mode : string)
    (mongo_uri : option string) : M DB_Utils :=
  let self := Build_DB_Utils db_name collection_name mode None None None None in
  let self := __set_mode_specifics self in
  __create_sqlite_db self ;;
  __create_mongo_db self mongo_uri.

(** Inserts data into SQLite database. *)
Definition push_to_sqlite_db (self : DB_Utils) (data : row) : M unit :=
  try_except
    (cmd ← getattr "sql_insert_cmd" (sql_insert_cmd self);
     Sqlite.execute_insert cmd data ;;
     Sqlite.commit)
    (λ e, if bool_decide (exn_cls e = IntegrityError) then
            d0 ← index data 0;
            d1 ← index data 1;
            print (MsgDuplicateEntry d0 d1)
          else print (MsgSqliteInsertError e)).

(** Inserts data into MongoDB. *)
Definition push_to_mongo_db (self : DB_Utils) (data : row) : M unit :=
  try_except
    (d ← getattr "mongo_data_dict" (mongo_data_dict self);
     let document := dict_of_pairs (zip (d.*1) data) in
     _ ← getattr "collection" (collection self);
     Mongo.insert_one document)
    (λ e, print (MsgMongoInsertError e)).

(** Thread-safe bulk insert for SQLite *)
Definition bulk_insert_sqlite (self : DB_Utils) (records : list row) : M bool :=
  with_lock sql_lock
    (try_except
       (cmd ← getattr "sql_insert_cmd" (sql_insert_cmd self);
        Sqlite.executemany cmd records ;;
        Sqlite.commit ;;
        mret true)
       (λ e, print (MsgSqliteBulkInsertError e) ;;
             Sqlite.rollback ;;
             mret false)).

(** MongoDB-specific find implementation *)
Definition _find_mongo (self : DB_Utils) (query : option predicate)
    (sort : option sort_spec) (projection : option projection)
    (limit : option Z) : M (list record) :=
  try_except
    (let query := match query with None => PredDict ∅ | Some q => q end in
     _ ← getattr "collection" (collection self);
     let cursor := MongoCursor query projection None None in
     let cursor := if truthy_list sort
                   then MongoCursor (cur_filter cursor) (cur_projection cursor)
                                    sort (cur_limit cursor)
                   else cursor in
     let cursor := if truthy_int limit
                   then MongoCursor (cur_filter cursor) (cur_projection cursor)
                                    (cur_sort cursor) limit
                   else cursor in
     docs ← Mongo.list_cursor E cursor;
     mret (Dict <$> docs))
    (λ e, print (MsgMongoFindError e) ;; mret []).

(** SQLite-specific find implementation *)
Definition _find_sqlite (self : DB_Utils) (query : option predicate)
    (sort : option sort_spec) (projection : option projection)
    (limit : option Z) : M (list record) :=
  try_except
    (res ← Sqlite.execute_select E (query_str self query sort projection limit);
     let columns := res.1 in
     mret ((λ row, Dict (dict_of_pairs (zip columns row))) <$> res.2))
    (λ e, print (MsgSqliteFindError e) ;; mret []).

(** Unified find method that works for both SQLite and MongoDB *)
Definition find_records (self : DB_Utils) (query : option predicate)
    (sort : option sort_spec) (projection : option projection)
    (limit : option Z) : M (list record) :=
  if bool_decide (mode self = "aux") || bool_decide (mode self = "main") then
    match collection self with
    | Some _ => _find_mongo self query sort projection limit
    | None => _find_sqlite self query sort projection limit
    end
  else raise (Exn ValueError "Invalid database mode").

End DB_Utils.

(** ** Notions used in the statements *)

(** The instance carries what [__set_mode_specifics] assigns for a known
    mode. *)
Definition configured (self : DB_Utils) : Prop :=
  (mode self = "aux" ∨ mode self = "main") ∧ __set_mode_specifics self = self.

(** The field names of the instance's mode, in insert order. *)
Definition fields (self : DB_Utils) : list string :=
  match sql_insert_cmd self with
  | Some cmd => ins_columns cmd
  | None => []
  end.

(** The rows of the instance's table that are committed to the file. *)
Definition persisted (self : DB_Utils) (w : world) : list row :=
  match sq_disk w !! collection_name self with
  | Some t => t_rows t
  | None => []
  end.

(** The file holds the table that the instance's schema creates. *)
Definition has_table (self : DB_Utils) (w : world) : Prop :=
  ∃ schema rows,
    sql_schema self = Some schema ∧
    sq_disk w !! collection_name self
      = Some (Table (ct_columns schema) (ct_primary_key schema) rows).

(** The primary key of a record under the instance's schema. *)
Definition primary_key (self : DB_Utils) (r : row) : row :=
  match sql_schema self with
  | Some schema => Sqlite.key_of (ct_columns schema) (ct_primary_key schema) r
  | None => []
  end.

(** The connection sees what is committed and nothing else: it holds no
    pending change.  (Whether SQLite still counts a transaction as begun,
    as it does after a refused INSERT, is not part of the world.) *)
Definition quiescent (w : world) : Prop := sq_conn w = sq_disk w.

(** The events a computation adds to the trace. *)
Definition events_of {A : Type} (m : M A) (w : world) : list event :=
  drop (length (trace w)) (trace (m w).2).

(** Every SQLite operation of the events happens while lock [l] is held;
    [held] tells whether it is at the start. *)
Fixpoint guarded_from (held : bool) (l : lock) (evs : list event) : bool :=
  match evs with
  | [] => true
  | EvAcquire l' :: evs' =>
      guarded_from (if bool_decide (l' = l) then true else held) l evs'
  | EvRelease l' :: evs' =>
      guarded_from (if bool_decide (l' = l) then false else held) l evs'
  | EvSqlite _ :: evs' => held && guarded_from held l evs'
  | EvMongo :: evs' => guarded_from held l evs'
  end.

Definition guarded (l : lock) (evs : list event) : bool := guarded_from false l evs.

(** The ways the remote store can be missing at construction, each with the
    exception it makes [__create_mongo_db] raise: no URI or an empty one, a
    URI the client rejects, a server that does not answer the ping. *)
Inductive remote_store_failure (E : engine) (w : world)
  : option string → exn → Prop :=
| uri_missing :
    remote_store_failure E w None
      (Exn ValueError "MongoDB URI is required for Atlas connection")
| uri_empty :
    remote_store_failure E w (Some "")
      (Exn ValueError "MongoDB URI is required for Atlas connection")
| client_rejects (uri : string) (e : exn) :
    truthy_str uri = true →
    mongo_client E uri = Some e →
    remote_store_failure E w (Some uri) e
| ping_fails (uri : string) :
    truthy_str uri = true →
    mongo_client E uri = None →
    mg_up w = false →
    remote_store_failure E w (Some uri) Mongo.unreachable.

(** The keys of [self.mongo_data_dict], in insertion order. *)
Definition document_keys (self : DB_Utils) : list string :=
  match mongo_data_dict self with
  | Some d => d.*1
  | None => []
  end.

(** The cursor that [_find_mongo] has built when it calls [list(cursor)]. *)
Definition find_cursor (query : option predicate) (sort : option sort_spec)
    (projection : option projection) (limit : option Z) : mongo_cursor :=
  MongoCursor (default (PredDict ∅) query) projection
              (if truthy_list sort then sort else None)
              (if truthy_int limit then limit else None).

(** The execution under a find raises [e]: the SELECT text is refused by
    SQLite, the Mongo server does not answer, or it refuses the cursor. *)
Inductive find_raises (E : engine) (self : DB_Utils) (query : option predicate)
    (sort : option sort_spec) (projection : option projection)
    (limit : option Z) (w : world) : exn → Prop :=
| sqlite_raises (e : exn) :
    collection self = None →
    sqlite_select E (query_str E self query sort projection limit) (sq_conn w) = inl e →
    find_raises E self query sort projection limit w e
| mongo_unreachable (c : string * string) :
    collection self = Some c →
    mg_up w = false →
    find_raises E self query sort projection limit w Mongo.unreachable
| mongo_raises (c : string * string) (e : exn) :
    collection self = Some c →
    mg_up w = true →
    mongo_run E (find_cursor query sort projection limit) (mg_docs w) = inl e →
    find_raises E self query sort projection limit w e.

(** The line the find methods print for an exception. *)
Definition find_error_message (self : DB_Utils) (e : exn) : message :=
  match collection self with
  | Some _ => MsgMongoFindError e
  | None => MsgSqliteFindError e
  end.

(** ** A concrete engine and concrete runs *)

(** An engine that accepts every name and URI, answers a SELECT with the
    whole table [rates], and a Mongo cursor with every document. *)
Definition demo_engine : engine :=
  Engine
    (λ _ db, match db !! "rates" with
             | Some t => inr (col_name <$> t_columns t, t_rows t)
             | None => inl (Exn OperationalError "no such table: rates")
             end)
    (λ _ docs, inr docs)
    (λ _, None) (λ _, None) (λ _, None)
    (λ _, "{...}").

(** An engine whose SELECT and cursor evaluation always raise. *)
Definition failing_engine : engine :=
  Engine
    (λ _ _, inl (Exn OperationalError "syntax error"))
    (λ _ _, inl (Exn PyMongoError "OperationFailure"))
    (λ _, None) (λ _, None) (λ _, None)
    (λ _, "{...}").

Definition fresh_world : world := World ∅ ∅ true [] 0 [] [].

Definition offline_world : world := World ∅ ∅ false [] 0 [] [].

Definition run {A : Type} (m : M A) (w : world) : world := (m w).2.

Definition result {A : Type} (m : M A) (w : world) : exn + A := (m w).1.

(** The instance that [DB_Utils("fx", "rates", "aux", uri)] returns, and the
    world it leaves. *)
Definition aux_instance : DB_Utils :=
  set_collection ("fx", "rates")
    (__set_mode_specifics (Build_DB_Utils "fx" "rates" "aux" None None None None)).

Definition aux_world : world :=
  run (__init__ demo_engine "fx" "rates" "aux" (Some "mongodb+srv://host")) fresh_world.

(** The same instance without a collection handle. *)
Definition aux_sqlite_only : DB_Utils :=
  __set_mode_specifics (Build_DB_Utils "fx" "rates" "aux" None None None None).

(** The instance of the main mode. *)
Definition main_instance : DB_Utils :=
  set_collection ("fx", "features")
    (__set_mode_specifics (Build_DB_Utils "fx" "features" "main" None None None None)).

Definition main_world : world :=
  run (__init__ demo_engine "fx" "features" "main" (Some "mongodb+srv://host")) fresh_world.

Definition t1_btc_100 : row := [VStr "2024-01-01T00:00"; VStr "BTC"; VFloat 100.0].

Definition main_record (ts : string) : row :=
  [VStr ts; VStr "BTC"; VFloat 3.0; VFloat 1.0; VFloat 2.0; VFloat 2.0;
   VNone; VFloat 0.5; VFloat 1.5; VStr "2024-01-02T00:00"].

(** The world after [push_to_sqlite_db(t1_btc_100)] on the fresh table. *)
Definition aux_world_1 : world :=
  run (push_to_sqlite_db aux_instance t1_btc_100) aux_world.

(** ** The batch insert and the drop of the Mongo collection *)

(** The lines that [bulk_insert_mongo] and [delete_mongo_db] print.  The two
    methods hand them back beside their value, in the order printed. *)
Inductive line :=
| LineMongoBulkInsertError (e : exn)
| LineCollectionDropped (name : string)
| LineDropError (e : exn).

Module Collection.

(** What an unordered bulk write leaves in the collection: every document is
    tried in turn; one without [_id] is given a generated one, one whose
    [_id] is already stored is refused and the others go on.  The flag tells
    whether no document was refused. *)
Fixpoint store_unordered (documents stored : list pydict) (next : N)
  : list pydict * N * bool :=
  match documents with
  | [] => (stored, next, true)
  | document :: documents' =>
      match document !! "_id" with
      | None =>
          store_unordered documents'
            (stored ++ [<["_id" := VObjectId next]> document]) (N.succ next)
      | Some i =>
          if bool_decide (Some i ∈ (λ d : pydict, d !! "_id") <$> stored) then
            ((store_unordered documents' stored next).1, false)
          else store_unordered documents' (stored ++ [document]) next
      end
  end.

(** [collection.insert_many(documents, ordered=False)]: an empty list is a
    [TypeError]; a refused document makes the call raise once all have been
    tried. *)
Definition insert_many (documents : list pydict) : M unit :=
  match documents with
  | [] => raise (Exn TypeError "documents must be a non-empty list")
  | _ =>
      λ w, let w1 := emit EvMongo w in
           if mg_up w1 then
             let res := store_unordered documents (mg_docs w1) (mg_next_id w1) in
             let w2 := set_mongo res.1.1 res.1.2 w1 in
             if res.2 then (inr tt, w2)
             else (inl (Exn PyMongoError "BulkWriteError"), w2)
           else (inl Mongo.unreachable, w1)
  end.

(** [collection.drop()] *)
Definition drop : M unit :=
  λ w, let w1 := emit EvMongo w in
       if mg_up w1 then (inr tt, set_mongo [] (mg_next_id w1) w1)
       else (inl Mongo.unreachable, w1).

End Collection.

(** Thread-safe bulk insert for MongoDB *)
Definition bulk_insert_mongo (self : DB_Utils) (documents : list pydict)
  : M (bool * list line) :=
  with_lock mongo_lock
    (try_except
       ((if truthy_list (Some documents) then
           _ ← getattr "collection" (collection self);
           Collection.insert_many documents
         else mret tt) ;;
        mret (true, []))
       (λ e, mret (false, [LineMongoBulkInsertError e]))).

(** Drops MongoDB collection. *)
Definition delete_mongo_db (self : DB_Utils) : M (unit * list line) :=
  try_except
    (_ ← getattr "collection" (collection self);
     Collection.drop ;;
     mret (tt, [LineCollectionDropped (collection_name self)]))
    (λ e, mret (tt, [LineDropError e])).

(** ** Further notions used in the statements *)





(** An engine like [demo_engine], but which refuses the SELECT whose WHERE
    clause is the incomplete text [rate >]. *)
Definition picky_engine : engine :=
  Engine
    (λ text db,
       if bool_decide (text = "SELECT * FROM rates WHERE rate >  ")
       then inl (Exn OperationalError "incomplete input")
       else sqlite_select demo_engine text db)
    (mongo_run demo_engine) (mongo_client demo_engine)
    (sqlite_open demo_engine) (sqlite_parse demo_engine) (str_dict demo_engine).

(** The documents of a batch, none of which has an [_id], as the collection
    stores them: each with the next generated [_id]. *)
Fixpoint with_ids (documents : list pydict) (next : N) : list pydict :=
  match documents with
  | [] => []
  | document :: documents' =>
      <["_id" := VObjectId next]> document :: with_ids documents' (N.succ next)
  end.

(** The SQLite side and the Mongo side of two worlds are the same. *)
Definition same_sqlite (w w' : world) : Prop :=
  sq_disk w' = sq_disk w ∧ sq_conn w' = sq_conn w.

Definition same_mongo (w w' : world) : Prop :=
  mg_up w' = mg_up w ∧ mg_docs w' = mg_docs w ∧ mg_next_id w' = mg_next_id w.

(** Two documents for the tests below. *)
Definition doc_btc : pydict :=
  {[ "timestamp" := VStr "2024-01-01T00:00"; "currency" := VStr "BTC";
     "rate" := VFloat 100.0 ]}.

Definition doc_eth : pydict :=
  {[ "timestamp" := VStr "2024-01-01T00:00"; "currency" := VStr "ETH";
     "rate" := VFloat 5.0 ]}.

Definition doc_with_id (n : N) : pydict := <["_id" := VObjectId n]> doc_btc.

(** The world after [push_to_mongo_db(t1_btc_100)]. *)
Definition aux_world_mongo_1 : world :=
  run (push_to_mongo_db aux_instance t1_btc_100) aux_world.

Definition t1_eth_5 : row := [VStr "2024-01-01T00:00"; VStr "ETH"; VFloat 5.0].



(** * Properties *)

(** ** Unfolding computations *)

Ltac unfold_M :=
  unfold with_lock, try_except, getattr, index, print in *;
  unfold mbind, mret, M_bind, M_ret, bind, ret, raise in *.

Lemma configured_cases (self : DB_Utils) :
  configured self →
  (sql_schema self = Some (aux_sql_schema (collection_name self)) ∧
   sql_insert_cmd self = Some (InsertStmt (collection_name self) aux_fields) ∧
   mongo_data_dict self = Some ((λ k, (k, VNone)) <$> aux_fields))
  ∨ (sql_schema self = Some (main_sql_schema (collection_name self)) ∧
     sql_insert_cmd self = Some (InsertStmt (collection_name self) main_fields) ∧
     mongo_data_dict self = Some ((λ k, (k, VNone)) <$> main_fields)).
Proof.
  intros [Hmode Hfix]. unfold __set_mode_specifics in Hfix.
  destruct (bool_decide (mode self = "aux")) eqn:Haux.
  - left. rewrite <- Hfix. done.
  - destruct (bool_decide (mode self = "main")) eqn:Hmain.
    + right. rewrite <- Hfix. done.
    + apply bool_decide_eq_false in Haux, Hmain. tauto.
Qed.

(** The insert statement of a configured instance names the columns of the
    table its schema creates, at least two of them. *)
Lemma configured_statement (self : DB_Utils) :
  configured self →
  ∃ schema cmd,
    sql_schema self = Some schema ∧ sql_insert_cmd self = Some cmd ∧
    ins_table cmd = collection_name self ∧
    ins_columns cmd = col_name <$> ct_columns schema ∧
    (2 ≤ length (ins_columns cmd))%nat.
Proof.
  intros Hc. destruct (configured_cases self Hc) as [(Hs & Hi & _)|(Hs & Hi & _)];
    eexists _, _; (split; [exact Hs|]); (split; [exact Hi|]); cbn; repeat split; lia.
Qed.

(** ** Single insert into SQLite *)






(** ** Batch insert into SQLite *)







(** Scenario B of the specification: in main mode, a batch of three records
    whose second repeats the key of the first is refused as a whole. *)
Example bulk_insert_sqlite_scenario_b :
  result (bulk_insert_sqlite main_instance
            [main_record "t1"; main_record "t1"; main_record "t2"]) main_world
    = inr false ∧
  persisted main_instance
    (run (bulk_insert_sqlite main_instance
            [main_record "t1"; main_record "t1"; main_record "t2"]) main_world) = [].
Proof. vm_compute. done. Qed.


(** ** The SQLite lock *)

Lemma events_of_app {A : Type} (m : M A) (w : world) (evs : list event) :
  trace (m w).2 = trace w ++ evs → events_of m w = evs.
Proof. unfold events_of. intros ->. apply drop_app_length. Qed.

(** A batch adds one INSERT event per statement it ran. *)
Lemma executemany_trace (st : insert_stmt) (records : list row) (w : world) :
  ∃ k : nat,
    trace (Sqlite.executemany st records w).2
      = trace w ++ replicate k (EvSqlite OpInsert).
Proof.
  revert w. induction records as [|data records IH]; intros w.
  - exists 0%nat. cbn. by rewrite app_nil_r.
  - cbn. unfold_M. unfold Sqlite.execute_insert.
    destruct (Sqlite.insert_row st data _) as [e|db].
    + exists 1%nat. done.
    + destruct (IH (set_sqlite (sq_disk (emit (EvSqlite OpInsert) w)) db
                               (emit (EvSqlite OpInsert) w))) as [k Hk].
      exists (S k). rewrite Hk. cbn. by rewrite <- app_assoc.
Qed.

Lemma guarded_from_inserts (l : lock) (k : nat) (evs : list event) :
  guarded_from true l (replicate k (EvSqlite OpInsert) ++ evs)
  = guarded_from true l evs.
Proof. induction k as [|k IH]; [done|]. cbn. exact IH. Qed.

Lemma last_cons_two {A : Type} (x : A) (l : list A) (a b : A) :
  last (x :: l ++ [a; b]) = Some b.
Proof.
  replace (x :: l ++ [a; b]) with ((x :: l ++ [a]) ++ [b])
    by (cbn; by rewrite <- app_assoc).
  apply last_snoc.
Qed.

(** The batch insert touches the store only between taking and releasing
    [sql_lock], and releases it on both ways out. *)
Lemma bulk_insert_sqlite_guarded (self : DB_Utils) (records : list row) (w : world) :
  guarded sql_lock (events_of (bulk_insert_sqlite self records) w) = true ∧
  last (events_of (bulk_insert_sqlite self records) w) = Some (EvRelease sql_lock).
Proof.
  unfold bulk_insert_sqlite. unfold_M.
  destruct (sql_insert_cmd self) as [cmd|].
  - destruct (executemany_trace cmd records (emit (EvAcquire sql_lock) w)) as [k Hk].
    destruct (Sqlite.executemany cmd records (emit (EvAcquire sql_lock) w))
      as [[e|[]] w1] eqn:Hrun; cbn in Hk.
    + rewrite (events_of_app _ _
                 (EvAcquire sql_lock :: replicate k (EvSqlite OpInsert)
                    ++ [EvSqlite OpRollback; EvRelease sql_lock])).
      * split; [apply (guarded_from_inserts sql_lock k)|].
        apply last_cons_two.
      * rewrite Hrun. cbn. rewrite Hk, <- !app_assoc. done.
    + rewrite (events_of_app _ _
                 (EvAcquire sql_lock :: replicate k (EvSqlite OpInsert)
                    ++ [EvSqlite OpCommit; EvRelease sql_lock])).
      * split; [apply (guarded_from_inserts sql_lock k)|].
        apply last_cons_two.
      * rewrite Hrun. cbn. rewrite Hk, <- !app_assoc. done.
  - rewrite (events_of_app _ _ [EvAcquire sql_lock; EvSqlite OpRollback; EvRelease sql_lock]).
    + done.
    + cbn. by rewrite <- !app_assoc.
Qed.

(** C3 on the code: the single insert runs its INSERT, and its COMMIT when
    the INSERT went through, without ever taking [sql_lock]. *)
Theorem push_to_sqlite_db_unguarded (self : DB_Utils) (cmd : insert_stmt)
    (data : row) (w : world) :
  sql_insert_cmd self = Some cmd →
  guarded sql_lock (events_of (push_to_sqlite_db self data) w) = false ∧
  EvSqlite OpInsert ∈ events_of (push_to_sqlite_db self data) w ∧
  EvAcquire sql_lock ∉ events_of (push_to_sqlite_db self data) w.
Proof.
  intros Hcmd.
  assert (events_of (push_to_sqlite_db self data) w = [EvSqlite OpInsert]
          ∨ events_of (push_to_sqlite_db self data) w
            = [EvSqlite OpInsert; EvSqlite OpCommit]) as [-> | ->].
  { unfold push_to_sqlite_db. unfold_M. rewrite Hcmd. unfold Sqlite.execute_insert.
    destruct (Sqlite.insert_row cmd data (sq_conn w)) as [e|db] eqn:Hins;
      [left|right]; apply events_of_app; cbn; rewrite Hins; cbn.
    - destruct (bool_decide (exn_cls e = IntegrityError));
        [destruct data as [|d0 [|d1 data']]|]; done.
    - by rewrite <- app_assoc. }
  - split; [done|]. split; [apply list_elem_of_here | by apply (bool_decide_unpack _)].
  - split; [done|]. split; [apply list_elem_of_here | by apply (bool_decide_unpack _)].
Qed.

Lemma push_to_sqlite_db_unguarded_witness :
  guarded sql_lock (events_of (push_to_sqlite_db aux_instance t1_btc_100) aux_world) = false ∧
  EvSqlite OpInsert ∈ events_of (push_to_sqlite_db aux_instance t1_btc_100) aux_world ∧
  EvAcquire sql_lock ∉ events_of (push_to_sqlite_db aux_instance t1_btc_100) aux_world.
Proof.
  apply (push_to_sqlite_db_unguarded aux_instance
           (InsertStmt "rates" aux_fields) t1_btc_100 aux_world).
  reflexivity.
Defined.

(** The schema creation of the constructor runs without the lock as well. *)
Example create_sqlite_db_unguarded :
  events_of (__create_sqlite_db demo_engine aux_instance) fresh_world
    = [EvSqlite OpConnect; EvSqlite OpCreateTable;
       EvSqlite (OpPragma "journal_mode = WAL");
       EvSqlite (OpPragma "synchronous = NORMAL")].
Proof. reflexivity. Qed.

(** ** Construction *)

(** What a successful construction tells: the mode is known, a non-empty URI
    was given, the server answered, and the instance is the configured one
    with its collection handle. *)
Lemma init_inr (E : engine) (db coll md : string) (uri : option string)
    (w w' : world) (self : DB_Utils) :
  __init__ E db coll md uri w = (inr self, w') →
  (md = "aux" ∨ md = "main") ∧
  (∃ u, uri = Some u ∧ truthy_str u = true ∧ mongo_client E u = None) ∧
  mg_up w = true ∧
  self = set_collection (db, coll)
           (__set_mode_specifics (Build_DB_Utils db coll md None None None None)).
Proof.
  unfold __init__, __create_sqlite_db, __create_mongo_db, __set_mode_specifics.
  unfold Sqlite.connect, Sqlite.execute_create, Sqlite.execute_pragma,
    Mongo.client, Mongo.ping.
  cbn [mode collection_name db_name].
  destruct (bool_decide (md = "aux")) eqn:Haux;
    [|destruct (bool_decide (md = "main")) eqn:Hmain].
  3: { unfold_M. cbn. destruct (sqlite_open E (db +:+ ".db")); done. }
  all: unfold_M; cbn;
    (destruct (sqlite_open E (db +:+ ".db")); [done|]); cbn;
    (destruct (sqlite_parse E coll); [done|]); cbn;
    (destruct uri as [u|]; [|done]);
    (destruct (truthy_str u) eqn:Hu; [|done]); cbn;
    (destruct (mongo_client E u) eqn:Hcl; [done|]); cbn;
    (destruct (mg_up w) eqn:Hup; [|done]); cbn;
    intros [= <- <-].
  - apply bool_decide_eq_true in Haux. eauto 10.
  - apply bool_decide_eq_true in Hmain. eauto 10.
Qed.

Ltac unfold_init :=
  unfold __init__, __create_sqlite_db, __create_mongo_db, __set_mode_specifics,
    Sqlite.connect, Sqlite.execute_create, Sqlite.execute_pragma,
    Mongo.client, Mongo.ping in *;
  cbn [mode collection_name db_name] in *.

(** C4 on the code: for a mode other than ['aux'] and ['main'],
    [__set_mode_specifics] assigns nothing and raises nothing; the SQLite
    connection is opened, and the construction then stops on the missing
    attribute [sql_schema] with an [AttributeError]. *)
Theorem init_unknown_mode_attribute_error (E : engine) (db coll md : string)
    (uri : option string) (w : world) :
  md ≠ "aux" →
  md ≠ "main" →
  sqlite_open E (db +:+ ".db") = None →
  __init__ E db coll md uri w
  = (inl (Exn AttributeError "sql_schema"),
     emit (EvSqlite OpConnect) (set_sqlite (sq_disk w) (sq_disk w) w)).
Proof.
  intros Haux Hmain Hopen. unfold_init.
  rewrite !bool_decide_eq_false_2 by done.
  unfold_M. cbn. rewrite Hopen. done.
Qed.

Lemma init_unknown_mode_attribute_error_witness :
  __init__ demo_engine "fx" "rates" "test" (Some "mongodb+srv://host") fresh_world
  = (inl (Exn AttributeError "sql_schema"),
     emit (EvSqlite OpConnect)
       (set_sqlite (sq_disk fresh_world) (sq_disk fresh_world) fresh_world)).
Proof.
  apply (init_unknown_mode_attribute_error demo_engine "fx" "rates" "test"
           (Some "mongodb+srv://host") fresh_world).
  - done.
  - done.
  - reflexivity.
Defined.

(** The check that the constructor lacks is the one [find_records] makes. *)
Lemma find_records_unknown_mode (E : engine) (self : DB_Utils)
    (query : option predicate) (sort : option sort_spec)
    (projection : option projection) (limit : option Z) (w : world) :
  mode self ≠ "aux" →
  mode self ≠ "main" →
  find_records E self query sort projection limit w
  = (inl (Exn ValueError "Invalid database mode"), w).
Proof.
  intros Haux Hmain. unfold find_records.
  rewrite !bool_decide_eq_false_2 by done. done.
Qed.

(** C7: when the URI is missing or empty, when the client rejects it, or when
    the server does not answer the ping, the constructor raises and hands no
    instance to the caller.  When the steps before [__create_mongo_db] pass
    (a known mode, a file that opens, a table name that parses), the
    exception is the [ValueError] for the missing URI, respectively the
    connection's own exception, which is raised again after being printed. *)
Theorem init_fails_without_remote_store (E : engine) (db coll md : string)
    (uri : option string) (w : world) (e0 : exn) :
  remote_store_failure E w uri e0 →
  ∃ e w',
    __init__ E db coll md uri w = (inl e, w') ∧
    ((md = "aux" ∨ md = "main") →
     sqlite_open E (db +:+ ".db") = None →
     sqlite_parse E coll = None →
     e = e0).
Proof.
  intros Hfail.
  destruct (__init__ E db coll md uri w) as [[e|self] w'] eqn:Hinit.
  - exists e, w'. split; [done|]. intros Hmode Hopen Hparse.
    unfold_init. unfold_M.
    assert ((if bool_decide (md = "aux") then true else bool_decide (md = "main")) = true)
      as Hknown.
    { destruct Hmode as [-> | ->]; done. }
    destruct (bool_decide (md = "aux")); [|rewrite Hknown in Hinit];
      cbn in Hinit; rewrite Hopen in Hinit; cbn in Hinit;
      rewrite Hparse in Hinit; cbn in Hinit;
      destruct Hfail as [| |u e1 Hu Hcl|u Hu Hcl Hup]; cbn in Hinit;
      rewrite ?Hu, ?Hcl in Hinit; cbn in Hinit; rewrite ?Hup in Hinit;
      cbn in Hinit; congruence.
  - apply init_inr in Hinit as (_ & (u & -> & Hu & Hcl) & Hup & _).
    inversion Hfail; subst; first [congruence | done].
Qed.

Lemma init_fails_without_remote_store_witness :
  ∃ e w',
    __init__ demo_engine "fx" "rates" "aux" None fresh_world = (inl e, w') ∧
    (("aux" = "aux" ∨ "aux" = "main") →
     sqlite_open demo_engine ("fx" +:+ ".db") = None →
     sqlite_parse demo_engine "rates" = None →
     e = Exn ValueError "MongoDB URI is required for Atlas connection").
Proof.
  apply (init_fails_without_remote_store demo_engine "fx" "rates" "aux" None
           fresh_world).
  apply uri_missing.
Defined.

(** An unreachable server: the constructor prints the error and raises it. *)
Example init_offline :
  result (__init__ demo_engine "fx" "rates" "aux" (Some "mongodb+srv://host"))
         offline_world = inl Mongo.unreachable ∧
  stdout (run (__init__ demo_engine "fx" "rates" "aux" (Some "mongodb+srv://host"))
              offline_world) = [MsgMongoConnectionError Mongo.unreachable].
Proof. vm_compute. done. Qed.

(** ** Dicts built by zipping names with values *)

Lemma zip_fst {A B : Type} (a : list A) (b : list B) :
  (zip a b).*1 = take (length b) a.
Proof.
  revert b. induction a as [|x a IH]; intros [|y b]; cbn; [done..|].
  by rewrite IH.
Qed.

Lemma zip_lookup {A B : Type} (a : list A) (b : list B) (i : nat) (x : A) (y : B) :
  a !! i = Some x → b !! i = Some y → zip a b !! i = Some (x, y).
Proof.
  revert b i. induction a as [|x' a IH]; intros [|y' b] [|i]; cbn; try done.
  - by intros [= ->] [= ->].
  - apply IH.
Qed.

Lemma zip_length {A B : Type} (a : list A) (b : list B) :
  length (zip a b) = (length a `min` length b)%nat.
Proof.
  revert b. induction a as [|x a IH]; intros [|y b]; cbn; [done..|].
  by rewrite IH.
Qed.

Lemma fold_insert_lookup_notin (pairs : list (string * value)) (m : pydict)
    (k : string) :
  k ∉ pairs.*1 →
  fold_left (λ d kv, <[kv.1 := kv.2]> d) pairs m !! k = m !! k.
Proof.
  revert m. induction pairs as [|[k' v'] pairs IH]; intros m Hk; [done|].
  cbn in *. apply not_elem_of_cons in Hk as [Hne Hk].
  rewrite IH by done. by rewrite lookup_insert_ne.
Qed.

Lemma fold_insert_lookup_in (pairs : list (string * value)) (m : pydict)
    (i : nat) (k : string) (v : value) :
  NoDup pairs.*1 →
  pairs !! i = Some (k, v) →
  fold_left (λ d kv, <[kv.1 := kv.2]> d) pairs m !! k = Some v.
Proof.
  revert m i. induction pairs as [|[k' v'] pairs IH]; intros m i Hnd Hi; [done|].
  cbn in *. apply NoDup_cons in Hnd as [Hfresh Hnd].
  destruct i as [|i]; cbn in Hi.
  - injection Hi as -> ->. rewrite fold_insert_lookup_notin by done.
    apply lookup_insert_eq.
  - by apply (IH _ i).
Qed.

Lemma fold_insert_dom (pairs : list (string * value)) (m : pydict) :
  dom (fold_left (λ d kv, <[kv.1 := kv.2]> d) pairs m)
  = list_to_set pairs.*1 ∪ dom m.
Proof.
  revert m. induction pairs as [|[k v] pairs IH]; intros m; cbn.
  - by rewrite (left_id_L ∅ (∪)).
  - rewrite IH, dom_insert_L, (assoc_L (∪)).
    by rewrite (comm_L (∪) (list_to_set pairs.*1) {[k]}).
Qed.

(** [dict(zip(names, values))] has the first [min] names as keys, and maps
    each of them, when the names are distinct, to the value at its position. *)
Lemma dict_of_zip_dom (names : list string) (values : row) :
  dom (dict_of_pairs (zip names values))
  = list_to_set (take (length values) names).
Proof.
  unfold dict_of_pairs.
  by rewrite fold_insert_dom, zip_fst, dom_empty_L, (right_id_L ∅ (∪)).
Qed.

Lemma dict_of_zip_lookup (names : list string) (values : row) (i : nat)
    (k : string) (v : value) :
  NoDup names →
  names !! i = Some k →
  values !! i = Some v →
  dict_of_pairs (zip names values) !! k = Some v.
Proof.
  intros Hnd Hk Hv. unfold dict_of_pairs.
  apply (fold_insert_lookup_in _ _ i).
  - rewrite zip_fst. apply (sublist_NoDup _ names); [done | apply sublist_take].
  - by apply zip_lookup.
Qed.

(** ** Single insert into MongoDB *)

Lemma configured_document_keys (self : DB_Utils) :
  configured self →
  NoDup (document_keys self) ∧ ("_id" ∉ document_keys self) ∧
  ∃ d, mongo_data_dict self = Some d.
Proof.
  intros Hc. unfold document_keys.
  destruct (configured_cases self Hc) as [(_ & _ & ->)|(_ & _ & ->)];
    (split; [by apply (bool_decide_unpack _)|]);
    (split; [by apply (bool_decide_unpack _)|]); eauto.
Qed.

(** C10: whatever the length of the record, [push_to_mongo_db] zips the
    mode's field names with the values, stopping at the shorter of the two,
    and inserts the resulting document (with its generated [_id]) when the
    server answers: nothing is raised and nothing is printed.  The document
    has the first [min (fields, values)] field names as keys, each mapped to
    the value at its position. *)
Theorem push_to_mongo_db_truncating_zip (self : DB_Utils) (c : string * string)
    (data : row) (w : world) :
  configured self →
  collection self = Some c →
  mg_up w = true →
  ∃ w',
    push_to_mongo_db self data w = (inr tt, w') ∧
    stdout w' = stdout w ∧
    mg_docs w'
      = mg_docs w ++ [<["_id" := VObjectId (mg_next_id w)]>
                        (dict_of_pairs (zip (document_keys self) data))] ∧
    dom (dict_of_pairs (zip (document_keys self) data))
      = list_to_set (take (length data) (document_keys self)) ∧
    size (dict_of_pairs (zip (document_keys self) data))
      = (length (document_keys self) `min` length data)%nat ∧
    ∀ (i : nat) (k : string) (v : value),
      document_keys self !! i = Some k → data !! i = Some v →
      dict_of_pairs (zip (document_keys self) data) !! k = Some v.
Proof.
  intros Hc Hcoll Hup.
  destruct (configured_document_keys self Hc) as (Hnd & Hid & d & Hd).
  assert (dict_of_pairs (zip (document_keys self) data) !! "_id" = None) as Hnone.
  { unfold dict_of_pairs. rewrite fold_insert_lookup_notin; [done|].
    rewrite zip_fst. intros Hin. apply Hid. eapply subseteq_take, Hin. }
  unfold push_to_mongo_db, Mongo.insert_one. unfold_M.
  unfold document_keys in *. rewrite Hd in *. rewrite Hcoll. cbn.
  rewrite Hup, Hnone. eexists. split; [reflexivity|]. cbn.
  split; [done|]. split; [done|]. split; [apply dict_of_zip_dom|].
  split.
  - rewrite <- size_dom, dict_of_zip_dom, size_list_to_set.
    + rewrite length_take. lia.
    + apply (sublist_NoDup _ d.*1); [done | apply sublist_take].
  - intros i k v. by apply dict_of_zip_lookup.
Qed.

Lemma push_to_mongo_db_truncating_zip_witness :
  ∃ w',
    push_to_mongo_db aux_instance [VStr "2024-01-01T00:00"; VStr "BTC"] aux_world
      = (inr tt, w') ∧
    stdout w' = stdout aux_world ∧
    mg_docs w'
      = mg_docs aux_world
          ++ [<["_id" := VObjectId (mg_next_id aux_world)]>
                (dict_of_pairs (zip (document_keys aux_instance)
                                    [VStr "2024-01-01T00:00"; VStr "BTC"]))] ∧
    dom (dict_of_pairs (zip (document_keys aux_instance)
                            [VStr "2024-01-01T00:00"; VStr "BTC"]))
      = list_to_set (take (length [VStr "2024-01-01T00:00"; VStr "BTC"])
                          (document_keys aux_instance)) ∧
    size (dict_of_pairs (zip (document_keys aux_instance)
                             [VStr "2024-01-01T00:00"; VStr "BTC"]))
      = (length (document_keys aux_instance)
           `min` length [VStr "2024-01-01T00:00"; VStr "BTC"])%nat ∧
    ∀ (i : nat) (k : string) (v : value),
      document_keys aux_instance !! i = Some k →
      [VStr "2024-01-01T00:00"; VStr "BTC"] !! i = Some v →
      dict_of_pairs (zip (document_keys aux_instance)
                         [VStr "2024-01-01T00:00"; VStr "BTC"]) !! k = Some v.
Proof.
  apply (push_to_mongo_db_truncating_zip aux_instance ("fx", "rates")
           [VStr "2024-01-01T00:00"; VStr "BTC"] aux_world).
  - split; [left|]; reflexivity.
  - reflexivity.
  - reflexivity.
Defined.

(** A record one value short and a record one value long, in aux mode: the
    first leaves [rate] out, the second drops its fourth value; neither run
    prints anything. *)
Example push_to_mongo_db_short_and_long :
  dict_of_pairs (zip (document_keys aux_instance) [VStr "t"; VStr "BTC"])
    = {[ "timestamp" := VStr "t"; "currency" := VStr "BTC" ]} ∧
  dict_of_pairs (zip (document_keys aux_instance)
                     [VStr "t"; VStr "BTC"; VFloat 1.5; VStr "extra"])
    = {[ "timestamp" := VStr "t"; "currency" := VStr "BTC"; "rate" := VFloat 1.5 ]} ∧
  stdout (run (push_to_mongo_db aux_instance [VStr "t"; VStr "BTC"]) aux_world)
    = stdout aux_world ∧
  stdout (run (push_to_mongo_db aux_instance
                 [VStr "t"; VStr "BTC"; VFloat 1.5; VStr "extra"]) aux_world)
    = stdout aux_world.
Proof. repeat split; by vm_compute. Qed.

(** ** Finding records *)

(** [_find_mongo] runs the cursor once and catches what it raises. *)
Lemma find_mongo_run (E : engine) (self : DB_Utils) (c : string * string)
    (query : option predicate) (sort : option sort_spec)
    (projection : option projection) (limit : option Z) (w : world) :
  collection self = Some c →
  _find_mongo E self query sort projection limit w
  = if mg_up w then
      match mongo_run E (find_cursor query sort projection limit) (mg_docs w) with
      | inr docs => (inr (Dict <$> docs), emit EvMongo w)
      | inl e => (inr [], (print (MsgMongoFindError e) (emit EvMongo w)).2)
      end
    else (inr [], (print (MsgMongoFindError Mongo.unreachable) (emit EvMongo w)).2).
Proof.
  intros Hcoll. unfold _find_mongo, Mongo.list_cursor, find_cursor. unfold_M.
  rewrite Hcoll. cbn. destruct (mg_up w) eqn:Hup; cbn; rewrite ?Hup; [|done].
  destruct query as [q|], (truthy_list sort), (truthy_int limit);
    cbn [from_option id cur_filter cur_projection cur_sort cur_limit];
    destruct (mongo_run E _ (mg_docs w)); cbn; rewrite ?Hup; done.
Qed.

(** [_find_sqlite] runs the rendered statement once and catches what it
    raises; the rows are zipped with the column names of the description. *)
Lemma find_sqlite_run (E : engine) (self : DB_Utils)
    (query : option predicate) (sort : option sort_spec)
    (projection : option projection) (limit : option Z) (w : world) :
  _find_sqlite E self query sort projection limit w
  = match sqlite_select E (query_str E self query sort projection limit) (sq_conn w) with
    | inr res =>
        (inr ((λ r, Dict (dict_of_pairs (zip res.1 r))) <$> res.2),
         emit (EvSqlite OpSelect) w)
    | inl e =>
        (inr [], (print (MsgSqliteFindError e) (emit (EvSqlite OpSelect) w)).2)
    end.
Proof.
  unfold _find_sqlite, Sqlite.execute_select. unfold_M. cbn.
  destruct (sqlite_select E _ (sq_conn w)); done.
Qed.

(** C9: an instance that the constructor returned has its collection handle,
    so [find_records] is [_find_mongo] on it, whatever the arguments and the
    world, and runs no SELECT. *)
Theorem constructed_instance_finds_in_mongo (E : engine) (db coll md : string)
    (uri : option string) (w w' : world) (self : DB_Utils) :
  __init__ E db coll md uri w = (inr self, w') →
  collection self = Some (db, coll) ∧
  (∃ u, uri = Some u ∧ truthy_str u = true) ∧
  mg_up w = true ∧
  ∀ (query : option predicate) (sort : option sort_spec)
    (projection : option projection) (limit : option Z) (w0 : world),
    find_records E self query sort projection limit w0
      = _find_mongo E self query sort projection limit w0 ∧
    events_of (find_records E self query sort projection limit) w0 = [EvMongo].
Proof.
  intros (Hmode & (u & -> & Hu & _) & Hup & ->)%init_inr.
  split; [done|]. split; [eauto|]. split; [done|].
  intros query sort projection limit w0.
  assert (∀ w1, find_records E
            (set_collection (db, coll)
               (__set_mode_specifics (Build_DB_Utils db coll md None None None None)))
            query sort projection limit w1
          = _find_mongo E
              (set_collection (db, coll)
                 (__set_mode_specifics (Build_DB_Utils db coll md None None None None)))
              query sort projection limit w1) as Hfind.
  { intros w1. unfold find_records, __set_mode_specifics. cbn.
    destruct Hmode as [-> | ->]; done. }
  split; [apply Hfind|].
  apply events_of_app. rewrite Hfind.
  rewrite (find_mongo_run E _ (db, coll)) by done.
  destruct (mg_up w0); [destruct (mongo_run E _ _)|]; done.
Qed.

Lemma constructed_instance_finds_in_mongo_witness :
  collection aux_instance = Some ("fx", "rates") ∧
  (∃ u, Some "mongodb+srv://host" = Some u ∧ truthy_str u = true) ∧
  mg_up fresh_world = true ∧
  ∀ (query : option predicate) (sort : option sort_spec)
    (projection : option projection) (limit : option Z) (w0 : world),
    find_records demo_engine aux_instance query sort projection limit w0
      = _find_mongo demo_engine aux_instance query sort projection limit w0 ∧
    events_of (find_records demo_engine aux_instance query sort projection limit) w0
      = [EvMongo].
Proof.
  apply (constructed_instance_finds_in_mongo demo_engine "fx" "rates" "aux"
           (Some "mongodb+srv://host") fresh_world aux_world aux_instance).
  reflexivity.
Defined.

Lemma known_mode_test (self : DB_Utils) :
  mode self = "aux" ∨ mode self = "main" →
  bool_decide (mode self = "aux") || bool_decide (mode self = "main") = true.
Proof. intros [-> | ->]; done. Qed.

(** C8, as the code has it: on an instance of a known mode, [find_records]
    raises nothing, whatever the query; when the execution of the query
    raises, the result is the empty list, and the exception is printed in one
    line and reaches the caller in no other way. *)
Theorem find_records_swallows_errors (E : engine) (self : DB_Utils)
    (query : option predicate) (sort : option sort_spec)
    (projection : option projection) (limit : option Z) (w : world) :
  mode self = "aux" ∨ mode self = "main" →
  ∃ rs w',
    find_records E self query sort projection limit w = (inr rs, w') ∧
    ∀ e, find_raises E self query sort projection limit w e →
      rs = [] ∧ stdout w' = stdout w ++ [find_error_message self e].
Proof.
  intros Hmode. unfold find_records, find_error_message.
  rewrite (known_mode_test self Hmode).
  destruct (collection self) as [c|] eqn:Hcoll.
  - rewrite (find_mongo_run E self c) by done.
    destruct (mg_up w) eqn:Hup;
      [destruct (mongo_run E _ (mg_docs w)) as [e0|docs] eqn:Hrun|];
      eexists _, _; (split; [reflexivity|]);
      intros e He; destruct He as [e ? Hsel|c' ? Hdown|c' e ? ? Hraise];
      cbn; try congruence.
    + assert (e = e0) as -> by congruence. done.
    + done.
  - rewrite find_sqlite_run.
    destruct (sqlite_select E _ (sq_conn w)) as [e0|res] eqn:Hsel0;
      eexists _, _; (split; [reflexivity|]);
      intros e He; destruct He as [e ? Hsel|c' ? Hdown|c' e ? ? Hraise];
      cbn; try congruence.
    assert (e = e0) as -> by congruence. done.
Qed.

Lemma find_records_swallows_errors_witness :
  ∃ rs w',
    find_records failing_engine aux_sqlite_only (Some (PredStr "rate >")) None None None
                 aux_world = (inr rs, w') ∧
    ∀ e, find_raises failing_engine aux_sqlite_only (Some (PredStr "rate >")) None None
                     None aux_world e →
      rs = [] ∧ stdout w' = stdout aux_world ++ [find_error_message aux_sqlite_only e].
Proof.
  apply (find_records_swallows_errors failing_engine aux_sqlite_only
           (Some (PredStr "rate >")) None None None aux_world).
  left. reflexivity.
Defined.

(** C8, as stated, fails: the find with the malformed predicate hands the
    caller the empty list, the very value that the find with a well-formed
    predicate hands back on the empty table; the error is in the printed line
    alone, so nothing of it is surfaced to the caller. *)
Lemma find_records_error_not_surfaced :
  result (find_records picky_engine aux_sqlite_only (Some (PredStr "rate >"))
                       None None None) aux_world = inr [] ∧
  result (find_records picky_engine aux_sqlite_only (Some (PredStr "rate > 0"))
                       None None None) aux_world = inr [] ∧
  result (find_records picky_engine aux_sqlite_only (Some (PredStr "rate >"))
                       None None None) aux_world
    = result (find_records picky_engine aux_sqlite_only (Some (PredStr "rate > 0"))
                           None None None) aux_world ∧
  stdout (run (find_records picky_engine aux_sqlite_only (Some (PredStr "rate >"))
                            None None None) aux_world)
    = stdout aux_world ++ [MsgSqliteFindError (Exn OperationalError "incomplete input")] ∧
  stdout (run (find_records picky_engine aux_sqlite_only (Some (PredStr "rate > 0"))
                            None None None) aux_world)
    = stdout aux_world.
Proof. repeat split; by vm_compute. Qed.

(** A malformed WHERE clause and a refused Mongo filter, run: both calls
    return the empty list and print the exception. *)
Example find_records_malformed :
  (find_records failing_engine aux_sqlite_only (Some (PredStr "rate >")) None None None
                aux_world).1 = inr [] ∧
  stdout (run (find_records failing_engine aux_sqlite_only (Some (PredStr "rate >"))
                            None None None) aux_world)
    = stdout aux_world ++ [MsgSqliteFindError (Exn OperationalError "syntax error")] ∧
  (find_records failing_engine aux_instance (Some (PredStr "rate >")) None None None
                aux_world).1 = inr [] ∧
  stdout (run (find_records failing_engine aux_instance (Some (PredStr "rate >"))
                            None None None) aux_world)
    = stdout aux_world ++ [MsgMongoFindError (Exn PyMongoError "OperationFailure")].
Proof. repeat split; by vm_compute. Qed.

(** C6: whichever back end serves it, a find that returns hands back a list
    of dicts.  On the SQLite path each fetched row is zipped with the column
    names of the cursor's description, so that with distinct names each name
    maps to the cell of its column. *)
Theorem find_records_returns_dicts (E : engine) (self : DB_Utils)
    (query : option predicate) (sort : option sort_spec)
    (projection : option projection) (limit : option Z) (w w' : world)
    (rs : list record) :
  find_records E self query sort projection limit w = (inr rs, w') →
  Forall (λ r, is_dict r = true) rs ∧
  (collection self = None →
   ∀ (cols : list string) (rows : list row),
     sqlite_select E (query_str E self query sort projection limit) (sq_conn w)
       = inr (cols, rows) →
     rs = (λ r, Dict (dict_of_pairs (zip cols r))) <$> rows ∧
     (NoDup cols →
      ∀ (i j : nat) (r : row) (c : string) (v : value),
        rows !! i = Some r → cols !! j = Some c → r !! j = Some v →
        ∃ d, rs !! i = Some (Dict d) ∧ d !! c = Some v)).
Proof.
  unfold find_records.
  destruct (bool_decide (mode self = "aux") || bool_decide (mode self = "main"));
    [|done].
  destruct (collection self) as [c|] eqn:Hcoll.
  - rewrite (find_mongo_run E self c) by done. intros Hfind. split; [|done].
    destruct (mg_up w); [destruct (mongo_run E _ (mg_docs w)) as [e|docs]|];
      injection Hfind as <- <-; try apply Forall_nil_2.
    apply Forall_fmap, Forall_forall. done.
  - rewrite find_sqlite_run. intros Hfind.
    destruct (sqlite_select E _ (sq_conn w)) as [e|[cols0 rows0]] eqn:Hsel;
      injection Hfind as <- <-.
    + split; [apply Forall_nil_2|]. intros _ cols rows [=].
    + split; [apply Forall_fmap, Forall_forall; done|].
      intros _ cols rows Heq. injection Heq as <- <-. split; [done|].
      intros Hnd i j r c0 v Hr Hc Hv. eexists. split.
      * cbn [fst snd]. unfold row in *. rewrite list_lookup_fmap, Hr. reflexivity.
      * by apply (dict_of_zip_lookup _ _ j).
Qed.

Lemma find_records_returns_dicts_witness :
  Forall (λ r, is_dict r = true)
    [Dict {[ "timestamp" := VStr "2024-01-01T00:00"; "currency" := VStr "BTC";
             "rate" := VFloat 100.0 ]}] ∧
  (collection aux_sqlite_only = None →
   ∀ (cols : list string) (rows : list row),
     sqlite_select demo_engine
       (query_str demo_engine aux_sqlite_only None None None None)
       (sq_conn aux_world_1) = inr (cols, rows) →
     [Dict {[ "timestamp" := VStr "2024-01-01T00:00"; "currency" := VStr "BTC";
              "rate" := VFloat 100.0 ]}]
       = (λ r, Dict (dict_of_pairs (zip cols r))) <$> rows ∧
     (NoDup cols →
      ∀ (i j : nat) (r : row) (c : string) (v : value),
        rows !! i = Some r → cols !! j = Some c → r !! j = Some v →
        ∃ d, [Dict {[ "timestamp" := VStr "2024-01-01T00:00";
                      "currency" := VStr "BTC"; "rate" := VFloat 100.0 ]}] !! i
               = Some (Dict d) ∧ d !! c = Some v)).
Proof.
  apply (find_records_returns_dicts demo_engine aux_sqlite_only None None None None
           aux_world_1
           (run (find_records demo_engine aux_sqlite_only None None None None)
                aux_world_1)).
  vm_compute. reflexivity.
Defined.

(** ** The statement text of [_find_sqlite] *)

(** C5: the statement is the four clauses in a row.  Without a predicate the
    WHERE clause is the empty text; every sort key is rendered as its field
    followed by [DESC] when its direction is [-1] or ["DESC"] and by [ASC]
    for any other direction; without a projection the columns are [*];
    without a limit the LIMIT clause is the empty text. *)
Theorem find_sqlite_rendering (E : engine) (self : DB_Utils)
    (query : option predicate) (sort : option sort_spec)
    (projection : option projection) (limit : option Z) :
  query_str E self query sort projection limit
    = "SELECT " +:+ select_columns projection +:+ " FROM " +:+ collection_name self
        +:+ " " +:+ where_clause E query +:+ " " +:+ order_by_clause sort
        +:+ " " +:+ limit_clause limit ∧
  where_clause E None = "" ∧
  (∀ (key : string * value) (keys : sort_spec),
     order_by_clause (Some (key :: keys))
     = "ORDER BY " +:+
         String.concat ", " ((λ fd, fd.1 +:+ " " +:+ dir_str fd.2) <$> key :: keys)) ∧
  dir_str (VInt (-1)) = "DESC" ∧
  dir_str (VStr "DESC") = "DESC" ∧
  (∀ direction : value,
     py_eq_int direction (-1) = false → direction ≠ VStr "DESC" →
     dir_str direction = "ASC") ∧
  select_columns None = "*" ∧
  limit_clause None = "".
Proof.
  repeat split; try reflexivity.
  intros direction Hint Hstr. unfold dir_str. rewrite Hint.
  destruct direction as [| | |s|]; try reflexivity.
  cbn. rewrite bool_decide_eq_false_2; [done|]. congruence.
Qed.

Lemma find_sqlite_rendering_witness :
  query_str demo_engine aux_sqlite_only None
            (Some [("timestamp", VStr "DESC"); ("rate", VInt 1)]) None (Some 2)
    = "SELECT * FROM rates  ORDER BY timestamp DESC, rate ASC LIMIT 2" ∧
  dir_str (VInt 1) = "ASC" ∧
  dir_str (VStr "desc") = "ASC".
Proof.
  destruct (find_sqlite_rendering demo_engine aux_sqlite_only None
              (Some [("timestamp", VStr "DESC"); ("rate", VInt 1)]) None (Some 2))
    as (Htext & _ & _ & _ & _ & Hasc & _ & _).
  split; [rewrite Htext; reflexivity|].
  split; apply Hasc; done.
Defined.

(** Arguments that Python takes for false render like absent ones: an empty
    predicate, an empty sort list, an empty projection, a limit of zero. *)
Lemma find_sqlite_falsy_arguments (E : engine) (self : DB_Utils) :
  query_str E self (Some (PredStr "")) (Some []) (Some (ProjList [])) (Some 0)
  = query_str E self None None None None.
Proof. reflexivity. Qed.

(** Scenario C of the specification: no predicate, newest first, two rows. *)
Example find_sqlite_scenario_c :
  query_str demo_engine aux_sqlite_only None (Some [("timestamp", VStr "DESC")])
            None (Some 2)
  = "SELECT * FROM rates  ORDER BY timestamp DESC LIMIT 2".
Proof. reflexivity. Qed.

(** ** Reaching the hypotheses *)

(** On a file without the table, a successful construction leaves a
    configured instance, its table, and no open transaction. *)
Lemma init_establishes (E : engine) (db coll md : string) (uri : option string)
    (w w' : world) (self : DB_Utils) :
  sq_disk w !! coll = None →
  __init__ E db coll md uri w = (inr self, w') →
  configured self ∧ has_table self w' ∧ persisted self w' = [] ∧ quiescent w'.
Proof.
  intros Hnone Hinit.
  pose proof (init_inr _ _ _ _ _ _ _ _ Hinit) as (Hmode & _ & _ & ->).
  unfold_init. unfold_M. unfold configured, has_table, persisted, quiescent.
  destruct Hmode as [-> | ->];
    [rewrite (bool_decide_eq_true_2 ("aux" = "aux")) in * by done
    |rewrite (bool_decide_eq_false_2 ("main" = "aux")),
       (bool_decide_eq_true_2 ("main" = "main")) in * by done];
    cbn in *;
    (destruct (sqlite_open E (db +:+ ".db")); [done|]); cbn in Hinit;
    (destruct (sqlite_parse E coll); [done|]); cbn in Hinit;
    (destruct uri as [u|]; [|done]);
    (destruct (truthy_str u); [|done]); cbn in Hinit;
    (destruct (mongo_client E u); [done|]); cbn in Hinit;
    (destruct (mg_up w); [|done]); cbn in Hinit;
    injection Hinit as <-; cbn;
    unfold Sqlite.create_if_absent; cbn; rewrite Hnone, lookup_insert_eq;
    (split; [split; [auto|done]|]); (split; [eauto|done]).
Qed.

(** * Further properties *)

(** ** Single insert into SQLite: every outcome *)


(** An [IntegrityError] is only raised for a record of the right length. *)
Lemma insert_row_integrity_length (st : insert_stmt) (data : row) (db : database)
    (e : exn) :
  Sqlite.insert_row st data db = inl e →
  exn_cls e = IntegrityError →
  length data = length (ins_columns st).
Proof.
  unfold Sqlite.insert_row. destruct (db !! ins_table st) as [t|].
  - repeat case_bool_decide; repeat case_match; intros [= <-]; cbn; try done.
    all: by apply dec_stable.
  - by intros [= <-].
Qed.




(** On a configured instance a single insert never raises, whatever the
    record and the world.  Either it is accepted, and then nothing is printed
    and what the connection sees is committed; or it is refused, and then one
    line is printed and the rows of the file and of the connection's view are
    as before.  The Mongo side is never touched. *)
Theorem push_to_sqlite_db_never_raises (self : DB_Utils) (data : row) (w : world) :
  configured self →
  ∃ w',
    push_to_sqlite_db self data w = (inr tt, w') ∧
    same_mongo w w' ∧
    ((stdout w' = stdout w ∧ sq_disk w' = sq_conn w')
     ∨ (∃ m, stdout w' = stdout w ++ [m]) ∧ same_sqlite w w').
Proof.
  intros Hc.
  destruct (configured_statement self Hc)
    as (schema & cmd & Hs & Hcmd & Htbl & Hcols & Htwo).
  unfold push_to_sqlite_db, Sqlite.execute_insert. unfold_M. rewrite Hcmd. cbn.
  destruct (Sqlite.insert_row cmd data (sq_conn w)) as [e|db] eqn:Hins; cbn.
  - destruct (bool_decide (exn_cls e = IntegrityError)) eqn:Hcls.
    + apply bool_decide_eq_true in Hcls.
      pose proof (insert_row_integrity_length _ _ _ _ Hins Hcls) as Hlen.
      destruct data as [|d0 [|d1 data']]; cbn in Hlen; [lia | lia |].
      cbn. eexists. split; [reflexivity|]. unfold same_mongo, same_sqlite. cbn.
      split; [done|]. right. eauto.
    + eexists. split; [reflexivity|]. unfold same_mongo, same_sqlite. cbn.
      split; [done|]. right. eauto.
  - eexists. split; [reflexivity|]. unfold same_mongo. cbn.
    split; [done|]. left. done.
Qed.

Lemma push_to_sqlite_db_never_raises_witness :
  ∃ w',
    push_to_sqlite_db aux_instance [VStr "only-one-value"] aux_world_1 = (inr tt, w') ∧
    same_mongo aux_world_1 w' ∧
    ((stdout w' = stdout aux_world_1 ∧ sq_disk w' = sq_conn w')
     ∨ (∃ m, stdout w' = stdout aux_world_1 ++ [m]) ∧ same_sqlite aux_world_1 w').
Proof.
  apply (push_to_sqlite_db_never_raises aux_instance [VStr "only-one-value"] aux_world_1).
  split; [left|]; reflexivity.
Defined.

(** A record with another number of values than the mode has fields is
    refused before any constraint is looked at: the binding error is printed
    as an insert error and the SQLite side stays as it was. *)
Theorem push_to_sqlite_db_wrong_length (self : DB_Utils) (data : row) (w : world) :
  configured self →
  has_table self w →
  quiescent w →
  length data ≠ length (fields self) →
  ∃ w',
    push_to_sqlite_db self data w = (inr tt, w') ∧
    same_sqlite w w' ∧
    stdout w' = stdout w ++ [MsgSqliteInsertError
                               (Exn ProgrammingError
                                    "Incorrect number of bindings supplied")].
Proof.
  intros Hc (schema & rows & Hs & Hdisk) Hq Hlen.
  destruct (configured_statement self Hc)
    as (schema' & cmd & Hs' & Hcmd & Htbl & Hcols & _).
  assert (schema' = schema) as -> by congruence.
  unfold fields in Hlen. rewrite Hcmd in Hlen.
  unfold push_to_sqlite_db, Sqlite.execute_insert, Sqlite.insert_row. unfold_M.
  rewrite Hcmd. cbn. rewrite Htbl, Hq, Hdisk. cbn.
  rewrite bool_decide_eq_false_2 by (intros H; apply H, Hcols).
  rewrite bool_decide_eq_true_2 by done. cbn.
  eexists. split; [reflexivity|]. unfold same_sqlite. cbn. done.
Qed.

Lemma push_to_sqlite_db_wrong_length_witness :
  ∃ w',
    push_to_sqlite_db aux_instance [VStr "2024-01-01T00:00"; VStr "BTC"] aux_world
      = (inr tt, w') ∧
    same_sqlite aux_world w' ∧
    stdout w' = stdout aux_world ++ [MsgSqliteInsertError
                                       (Exn ProgrammingError
                                            "Incorrect number of bindings supplied")].
Proof.
  apply (push_to_sqlite_db_wrong_length aux_instance
           [VStr "2024-01-01T00:00"; VStr "BTC"] aux_world).
  - split; [left|]; reflexivity.
  - eexists _, _. split; reflexivity.
  - reflexivity.
  - done.
Defined.



(** ** The primary key of each mode *)

Lemma configured_by_mode (self : DB_Utils) :
  configured self →
  (mode self = "aux" →
   sql_schema self = Some (aux_sql_schema (collection_name self))) ∧
  (mode self = "main" →
   sql_schema self = Some (main_sql_schema (collection_name self))).
Proof.
  intros [_ Hfix]. unfold __set_mode_specifics in Hfix.
  split; intros Hmode; rewrite Hmode in Hfix; rewrite <- Hfix; reflexivity.
Qed.

Lemma key_of_cons (c : column) (cols : list column) (pk : list string)
    (v : value) (r : row) :
  Sqlite.key_of (c :: cols) pk (v :: r)
  = if decide (col_name c ∈ pk) then v :: Sqlite.key_of cols pk r
    else Sqlite.key_of cols pk r.
Proof.
  unfold Sqlite.key_of. cbn [zip]. rewrite filter_cons. cbn [fst snd].
  destruct (decide (col_name c ∈ pk)); reflexivity.
Qed.

Lemma key_of_nil (cols : list column) (pk : list string) :
  Sqlite.key_of cols pk [] = [].
Proof. by destruct cols. Qed.

(** Columns outside the primary key give no cell to the key. *)
Lemma key_of_outside (cols : list column) (pk : list string) (r : row) :
  Forall (λ c, col_name c ∉ pk) cols →
  Sqlite.key_of cols pk r = [].
Proof.
  intros Hout. revert r. induction Hout as [|c cols Hc _ IH]; intros r.
  - by destruct r.
  - destruct r as [|v r]; [apply key_of_nil|].
    rewrite key_of_cons, decide_False by done. apply IH.
Qed.

Lemma primary_key_take (self : DB_Utils) (r : row) :
  configured self →
  (mode self = "aux" → primary_key self r = take 2 r) ∧
  (mode self = "main" → primary_key self r = take 1 r).
Proof.
  intros Hc. destruct (configured_by_mode self Hc) as [Haux Hmain].
  split; intros Hmode; unfold primary_key;
    [rewrite (Haux Hmode) | rewrite (Hmain Hmode)];
    unfold aux_sql_schema, main_sql_schema;
    cbn [ct_columns ct_primary_key].
  - destruct r as [|v0 [|v1 r]].
    + apply key_of_nil.
    + rewrite key_of_cons, decide_True by (by apply (bool_decide_unpack _)).
      by rewrite key_of_nil.
    + rewrite !key_of_cons, !decide_True by (by apply (bool_decide_unpack _)).
      rewrite key_of_outside; [done|].
      repeat constructor. by apply (bool_decide_unpack _).
  - destruct r as [|v0 r].
    + apply key_of_nil.
    + rewrite key_of_cons, decide_True by (by apply (bool_decide_unpack _)).
      rewrite key_of_outside; [done|].
      repeat constructor; by apply (bool_decide_unpack _).
Qed.

(** The primary key of a record is made of its first two values (timestamp,
    currency) in aux mode and of its first value alone (timestamp) in main
    mode, whatever the length of the record. *)
Theorem primary_key_by_mode (self : DB_Utils) (r : row) :
  configured self →
  (mode self = "aux" → primary_key self r = take 2 r) ∧
  (mode self = "main" → primary_key self r = take 1 r).
Proof. apply primary_key_take. Qed.

Lemma primary_key_by_mode_witness :
  ("aux" = "aux" → primary_key aux_instance t1_btc_100 = take 2 t1_btc_100) ∧
  ("aux" = "main" → primary_key aux_instance t1_btc_100 = take 1 t1_btc_100).
Proof.
  apply (primary_key_by_mode aux_instance t1_btc_100).
  split; [left|]; reflexivity.
Defined.



(** ** Batch insert into SQLite: an accepted batch *)




(** ** Construction: when it succeeds and what it leaves *)

(** What a returned instance implies: the mode is known, the file opened, the
    table name parsed, a non-empty URI was given that the client accepted,
    and the server answered the ping; the instance carries the statements of
    its mode and its collection handle; and the one line printed is that of
    the successful connection. *)
Theorem init_success_implies (E : engine) (db coll md : string) (uri : option string)
    (w w' : world) (self : DB_Utils) :
  __init__ E db coll md uri w = (inr self, w') →
  (md = "aux" ∨ md = "main") ∧
  sqlite_open E (db +:+ ".db") = None ∧
  sqlite_parse E coll = None ∧
  (∃ u, uri = Some u ∧ truthy_str u = true ∧ mongo_client E u = None) ∧
  mg_up w = true ∧
  self = set_collection (db, coll)
           (__set_mode_specifics (Build_DB_Utils db coll md None None None None)) ∧
  stdout w' = stdout w ++ [MsgMongoConnected] ∧
  mg_docs w' = mg_docs w.
Proof.
  intros Hinit.
  pose proof (init_inr _ _ _ _ _ _ _ _ Hinit) as (Hmode & Huri & Hup & Hself).
  split; [done|].
  assert (sqlite_open E (db +:+ ".db") = None ∧ sqlite_parse E coll = None
          ∧ stdout w' = stdout w ++ [MsgMongoConnected] ∧ mg_docs w' = mg_docs w)
    as (Hopen & Hparse & Hout & Hdocs); [|done].
  destruct Huri as (u & -> & Hu & Hcl).
  unfold_init. unfold_M.
  destruct Hmode as [-> | ->];
    [rewrite (bool_decide_eq_true_2 ("aux" = "aux")) in * by done
    |rewrite (bool_decide_eq_false_2 ("main" = "aux")),
       (bool_decide_eq_true_2 ("main" = "main")) in * by done];
    cbn in Hinit;
    (destruct (sqlite_open E (db +:+ ".db")); [done|]); cbn in Hinit;
    (destruct (sqlite_parse E coll); [done|]); cbn in Hinit;
    rewrite Hu, Hcl in Hinit; cbn in Hinit; rewrite Hup in Hinit; cbn in Hinit;
    injection Hinit as _ <-; done.
Qed.

Lemma init_success_implies_witness :
  ("aux" = "aux" ∨ "aux" = "main") ∧
  sqlite_open demo_engine ("fx" +:+ ".db") = None ∧
  sqlite_parse demo_engine "rates" = None ∧
  (∃ u, Some "mongodb+srv://host" = Some u ∧ truthy_str u = true
        ∧ mongo_client demo_engine u = None) ∧
  mg_up fresh_world = true ∧
  aux_instance = set_collection ("fx", "rates")
                   (__set_mode_specifics
                      (Build_DB_Utils "fx" "rates" "aux" None None None None)) ∧
  stdout aux_world = stdout fresh_world ++ [MsgMongoConnected] ∧
  mg_docs aux_world = mg_docs fresh_world.
Proof.
  apply (init_success_implies demo_engine "fx" "rates" "aux"
           (Some "mongodb+srv://host") fresh_world aux_world aux_instance).
  reflexivity.
Defined.

Lemma init_establishes_witness :
  configured aux_instance ∧ has_table aux_instance aux_world
  ∧ persisted aux_instance aux_world = [] ∧ quiescent aux_world.
Proof.
  apply (init_establishes demo_engine "fx" "rates" "aux" (Some "mongodb+srv://host")
           fresh_world aux_world aux_instance).
  - reflexivity.
  - reflexivity.
Defined.

(** Constructing an instance on a file that already holds the table leaves
    what is committed to the file as it is, whether the construction returns
    or raises: the table is only created when it is absent. *)
Theorem init_keeps_existing_table (E : engine) (db coll md : string)
    (uri : option string) (w : world) (t : table) :
  sq_disk w !! coll = Some t →
  sq_disk (__init__ E db coll md uri w).2 = sq_disk w.
Proof.
  intros Ht. unfold_init. unfold_M.
  assert (Sqlite.create_if_absent (aux_sql_schema coll) (sq_disk w) = sq_disk w) as Haux.
  { unfold Sqlite.create_if_absent. cbn. by rewrite Ht. }
  assert (Sqlite.create_if_absent (main_sql_schema coll) (sq_disk w) = sq_disk w) as Hmain.
  { unfold Sqlite.create_if_absent. cbn. by rewrite Ht. }
  destruct (bool_decide (md = "aux")); [|destruct (bool_decide (md = "main"))]; cbn;
    (destruct (sqlite_open E _); [done|]); cbn; try done;
    (destruct (sqlite_parse E coll); [done|]); cbn;
    rewrite ?Haux, ?Hmain;
    (destruct uri as [u|]; [|done]);
    (destruct (truthy_str u); [|done]); cbn;
    (destruct (mongo_client E u); [done|]); cbn;
    (destruct (mg_up w); done).
Qed.

Lemma init_keeps_existing_table_witness :
  sq_disk (__init__ demo_engine "fx" "rates" "aux" (Some "mongodb+srv://host")
                    aux_world_1).2 = sq_disk aux_world_1.
Proof.
  apply (init_keeps_existing_table demo_engine "fx" "rates" "aux"
           (Some "mongodb+srv://host") aux_world_1
           (Table (ct_columns (aux_sql_schema "rates"))
                  (ct_primary_key (aux_sql_schema "rates")) [t1_btc_100])).
  reflexivity.
Defined.

(** A construction that fails for the remote store has already set up the
    SQLite side: in a file without the table, the table of the mode has been
    created, empty, although no instance is returned. *)
Theorem init_failure_leaves_table (E : engine) (db coll md : string)
    (uri : option string) (w : world) (e0 : exn) :
  md = "aux" ∨ md = "main" →
  sqlite_open E (db +:+ ".db") = None →
  sqlite_parse E coll = None →
  sq_disk w !! coll = None →
  remote_store_failure E w uri e0 →
  ∃ w',
    __init__ E db coll md uri w = (inl e0, w') ∧
    has_table (__set_mode_specifics (Build_DB_Utils db coll md None None None None)) w' ∧
    persisted (__set_mode_specifics (Build_DB_Utils db coll md None None None None)) w' = [] ∧
    quiescent w' ∧
    ((uri = None ∨ uri = Some "") ∧ stdout w' = stdout w
     ∨ stdout w' = stdout w ++ [MsgMongoConnectionError e0]).
Proof.
  intros Hmode Hopen Hparse Hnone Hfail.
  unfold_init. unfold_M. unfold has_table, persisted, quiescent, __set_mode_specifics.
  destruct Hmode as [-> | ->];
    [rewrite !(bool_decide_eq_true_2 ("aux" = "aux")) by done
    |rewrite !(bool_decide_eq_false_2 ("main" = "aux")),
       !(bool_decide_eq_true_2 ("main" = "main")) by done];
    cbn; rewrite Hopen; cbn; rewrite Hparse; cbn;
    unfold Sqlite.create_if_absent; cbn; rewrite Hnone;
    destruct Hfail as [| |u e1 Hu Hcl|u Hu Hcl Hup]; cbn;
    rewrite ?Hu, ?Hcl; cbn; rewrite ?Hup; cbn;
    (eexists; split; [reflexivity|]); cbn; rewrite lookup_insert_eq;
    (split; [eauto|]); (split; [done|]); (split; [done|]); auto.
Qed.

Lemma init_failure_leaves_table_witness :
  ∃ w',
    __init__ demo_engine "fx" "rates" "aux" None fresh_world
      = (inl (Exn ValueError "MongoDB URI is required for Atlas connection"), w') ∧
    has_table (__set_mode_specifics (Build_DB_Utils "fx" "rates" "aux" None None None None)) w' ∧
    persisted (__set_mode_specifics (Build_DB_Utils "fx" "rates" "aux" None None None None)) w'
      = [] ∧
    quiescent w' ∧
    ((@None string = None ∨ @None string = Some "") ∧ stdout w' = stdout fresh_world
     ∨ stdout w' = stdout fresh_world
                     ++ [MsgMongoConnectionError
                           (Exn ValueError "MongoDB URI is required for Atlas connection")]).
Proof.
  apply (init_failure_leaves_table demo_engine "fx" "rates" "aux" None fresh_world).
  - by left.
  - reflexivity.
  - reflexivity.
  - reflexivity.
  - apply uri_missing.
Defined.

(** ** The mode's statements and field names agree *)

(** For a known mode, the three things [__set_mode_specifics] assigns fit
    together: the INSERT names the columns of the CREATE TABLE, in order and
    for the same table; the keys of the Mongo dict are these same names, each
    with value [None]; no name occurs twice; and the primary-key columns are
    columns of the table that are NOT NULL. *)
Theorem set_mode_specifics_consistent (self : DB_Utils) :
  mode self = "aux" ∨ mode self = "main" →
  ∃ schema cmd d,
    sql_schema (__set_mode_specifics self) = Some schema ∧
    sql_insert_cmd (__set_mode_specifics self) = Some cmd ∧
    mongo_data_dict (__set_mode_specifics self) = Some d ∧
    ct_table schema = collection_name self ∧
    ins_table cmd = collection_name self ∧
    ins_columns cmd = col_name <$> ct_columns schema ∧
    d.*1 = ins_columns cmd ∧
    Forall (λ kv, kv.2 = VNone) d ∧
    NoDup (ins_columns cmd) ∧
    Forall (λ k, k ∈ ins_columns cmd) (ct_primary_key schema) ∧
    Forall (λ c, col_name c ∈ ct_primary_key schema → col_not_null c = true)
           (ct_columns schema).
Proof.
  intros Hmode. unfold __set_mode_specifics.
  destruct Hmode as [-> | ->];
    [rewrite !(bool_decide_eq_true_2 (_ = "aux")) by done
    |rewrite !(bool_decide_eq_false_2 ("main" = "aux")),
       !(bool_decide_eq_true_2 ("main" = "main")) by done];
    eexists _, _, _; cbn;
    repeat (split; [first [reflexivity | by apply (bool_decide_unpack _)]|]);
    by apply (bool_decide_unpack _).
Qed.

Lemma set_mode_specifics_consistent_witness :
  ∃ schema cmd d,
    sql_schema (__set_mode_specifics main_instance) = Some schema ∧
    sql_insert_cmd (__set_mode_specifics main_instance) = Some cmd ∧
    mongo_data_dict (__set_mode_specifics main_instance) = Some d ∧
    ct_table schema = collection_name main_instance ∧
    ins_table cmd = collection_name main_instance ∧
    ins_columns cmd = col_name <$> ct_columns schema ∧
    d.*1 = ins_columns cmd ∧
    Forall (λ kv, kv.2 = VNone) d ∧
    NoDup (ins_columns cmd) ∧
    Forall (λ k, k ∈ ins_columns cmd) (ct_primary_key schema) ∧
    Forall (λ c, col_name c ∈ ct_primary_key schema → col_not_null c = true)
           (ct_columns schema).
Proof.
  apply (set_mode_specifics_consistent main_instance). by right.
Defined.

(** [__set_mode_specifics] assigns the same values when it is run again, and
    keeps the names, the mode and the collection handle; for an unknown mode
    it leaves the instance as it is. *)
Theorem set_mode_specifics_idempotent (self : DB_Utils) :
  __set_mode_specifics (__set_mode_specifics self) = __set_mode_specifics self ∧
  db_name (__set_mode_specifics self) = db_name self ∧
  collection_name (__set_mode_specifics self) = collection_name self ∧
  mode (__set_mode_specifics self) = mode self ∧
  collection (__set_mode_specifics self) = collection self ∧
  (mode self ≠ "aux" → mode self ≠ "main" → __set_mode_specifics self = self).
Proof.
  unfold __set_mode_specifics.
  destruct (bool_decide (mode self = "aux")) eqn:Haux;
    [|destruct (bool_decide (mode self = "main")) eqn:Hmain]; cbn;
    rewrite ?Haux, ?Hmain; repeat split; try done.
  - apply bool_decide_eq_true in Haux. done.
  - apply bool_decide_eq_true in Hmain. done.
Qed.

(** ** Single insert into MongoDB: every outcome *)

(** The run of [push_to_mongo_db] on a configured instance with its
    collection handle, the server answering. *)
Lemma push_to_mongo_db_up (self : DB_Utils) (c : string * string) (data : row)
    (w : world) :
  configured self →
  collection self = Some c →
  mg_up w = true →
  push_to_mongo_db self data w
  = (inr tt,
     set_mongo
       (mg_docs w ++ [<["_id" := VObjectId (mg_next_id w)]>
                        (dict_of_pairs (zip (document_keys self) data))])
       (N.succ (mg_next_id w)) (emit EvMongo w)).
Proof.
  intros Hc Hcoll Hup.
  destruct (configured_document_keys self Hc) as (Hnd & Hid & d & Hd).
  assert (dict_of_pairs (zip (document_keys self) data) !! "_id" = None) as Hnone.
  { unfold dict_of_pairs. rewrite fold_insert_lookup_notin; [done|].
    rewrite zip_fst. intros Hin. apply Hid. eapply subseteq_take, Hin. }
  unfold push_to_mongo_db, Mongo.insert_one. unfold_M.
  unfold document_keys in *. rewrite Hd in *. rewrite Hcoll. cbn.
  by rewrite Hup, Hnone.
Qed.

(** Whatever the instance, the record and the world, [push_to_mongo_db]
    raises nothing and leaves the SQLite side alone.  Either nothing is
    printed, or one line is printed and the collection is as before; with
    the server not answering it is the latter. *)
Theorem push_to_mongo_db_never_raises (self : DB_Utils) (data : row) (w : world) :
  ∃ w',
    push_to_mongo_db self data w = (inr tt, w') ∧
    same_sqlite w w' ∧
    (stdout w' = stdout w
     ∨ (∃ e, stdout w' = stdout w ++ [MsgMongoInsertError e]) ∧ same_mongo w w') ∧
    (mg_up w = false → stdout w' ≠ stdout w).
Proof.
  unfold push_to_mongo_db, Mongo.insert_one, same_sqlite, same_mongo. unfold_M.
  destruct (mongo_data_dict self) as [d|]; cbn.
  - destruct (collection self) as [c|]; cbn.
    + destruct (mg_up w) eqn:Hup; cbn.
      * destruct (dict_of_pairs (zip d.*1 data) !! "_id") as [i|]; cbn.
        -- case_bool_decide; cbn; eexists; (split; [reflexivity|]); cbn;
             rewrite ?Hup; eauto 10.
        -- eexists. split; [reflexivity|]. cbn. eauto 10.
      * eexists. split; [reflexivity|]. cbn. rewrite Hup.
        split; [done|]. split; [eauto 10|].
        intros _ Heq. apply (f_equal length) in Heq.
        rewrite length_app in Heq. cbn in Heq. lia.
    + eexists. split; [reflexivity|]. cbn. split; [done|]. split; [eauto 10|].
      intros _ Heq. apply (f_equal length) in Heq.
      rewrite length_app in Heq. cbn in Heq. lia.
  - eexists. split; [reflexivity|]. cbn. split; [done|]. split; [eauto 10|].
    intros _ Heq. apply (f_equal length) in Heq.
    rewrite length_app in Heq. cbn in Heq. lia.
Qed.

(** The collection has no notion of the primary key: the same record pushed
    twice is stored twice, as two documents that differ in their generated
    [_id] only.  (The SQLite table refuses the second one.) *)
Theorem push_to_mongo_db_twice (self : DB_Utils) (c : string * string) (data : row)
    (w : world) :
  configured self →
  collection self = Some c →
  mg_up w = true →
  ∃ d1 d2 w',
    push_to_mongo_db self data (push_to_mongo_db self data w).2 = (inr tt, w') ∧
    mg_docs w' = mg_docs w ++ [d1; d2] ∧
    d1 ≠ d2 ∧
    delete "_id" d1 = dict_of_pairs (zip (document_keys self) data) ∧
    delete "_id" d2 = dict_of_pairs (zip (document_keys self) data) ∧
    stdout w' = stdout w.
Proof.
  intros Hc Hcoll Hup.
  destruct (configured_document_keys self Hc) as (Hnd & Hid & d & Hd).
  assert (dict_of_pairs (zip (document_keys self) data) !! "_id" = None) as Hnone.
  { unfold dict_of_pairs. rewrite fold_insert_lookup_notin; [done|].
    rewrite zip_fst. intros Hin. apply Hid. eapply subseteq_take, Hin. }
  rewrite (push_to_mongo_db_up self c data w) by done. cbn [snd].
  rewrite (push_to_mongo_db_up self c data) by done. cbn.
  eexists _, _, _. split; [reflexivity|]. cbn.
  split; [by rewrite <- app_assoc|]. split.
  - intros Heq. apply (f_equal (λ m : pydict, m !! "_id")) in Heq.
    rewrite !lookup_insert_eq in Heq. injection Heq as Heq. lia.
  - by rewrite !delete_insert_id.
Qed.

Lemma push_to_mongo_db_twice_witness :
  ∃ d1 d2 w',
    push_to_mongo_db aux_instance t1_btc_100
      (push_to_mongo_db aux_instance t1_btc_100 aux_world).2 = (inr tt, w') ∧
    mg_docs w' = mg_docs aux_world ++ [d1; d2] ∧
    d1 ≠ d2 ∧
    delete "_id" d1 = dict_of_pairs (zip (document_keys aux_instance) t1_btc_100) ∧
    delete "_id" d2 = dict_of_pairs (zip (document_keys aux_instance) t1_btc_100) ∧
    stdout w' = stdout aux_world.
Proof.
  apply (push_to_mongo_db_twice aux_instance ("fx", "rates") t1_btc_100 aux_world).
  - split; [left|]; reflexivity.
  - reflexivity.
  - reflexivity.
Defined.

(** ** Batch insert into MongoDB *)

Lemma store_unordered_without_ids (documents stored : list pydict) (next : N) :
  Forall (λ d : pydict, d !! "_id" = None) documents →
  Collection.store_unordered documents stored next
  = (stored ++ with_ids documents next, (next + N.of_nat (length documents))%N, true).
Proof.
  intros Hnone. revert stored next.
  induction Hnone as [|document documents Hd _ IH]; intros stored next; cbn.
  - by rewrite app_nil_r, N.add_0_r.
  - rewrite Hd, IH, <- app_assoc. cbn. do 2 f_equal. lia.
Qed.

Lemma store_unordered_app (l1 l2 stored : list pydict) (next : N) :
  Collection.store_unordered (l1 ++ l2) stored next
  = ((Collection.store_unordered l2
        (Collection.store_unordered l1 stored next).1.1
        (Collection.store_unordered l1 stored next).1.2).1,
     (Collection.store_unordered l1 stored next).2
     && (Collection.store_unordered l2
           (Collection.store_unordered l1 stored next).1.1
           (Collection.store_unordered l1 stored next).1.2).2).
Proof.
  revert stored next. induction l1 as [|document l1 IH]; intros stored next; cbn.
  - by destruct (Collection.store_unordered l2 stored next) as [[??]?].
  - destruct (document !! "_id") as [i|]; [|apply IH].
    case_bool_decide; [|apply IH]. cbn. by rewrite IH.
Qed.


(** An empty batch returns [True] without calling the collection at all:
    whatever the instance and the world (a missing handle, a server that
    does not answer), the lock is taken and released and nothing else
    happens. *)
Theorem bulk_insert_mongo_empty (self : DB_Utils) (w : world) :
  bulk_insert_mongo self [] w
  = (inr (true, []), emit (EvRelease mongo_lock) (emit (EvAcquire mongo_lock) w)) ∧
  Collection.insert_many [] w
  = (inl (Exn TypeError "documents must be a non-empty list"), w).
Proof. split; reflexivity. Qed.

(** A batch of documents without [_id], the server answering: [True], no
    line, and every document is stored, in order, each with the next
    generated [_id]. *)
Theorem bulk_insert_mongo_stores_all (self : DB_Utils) (c : string * string)
    (documents : list pydict) (w : world) :
  collection self = Some c →
  mg_up w = true →
  Forall (λ d : pydict, d !! "_id" = None) documents →
  ∃ w',
    bulk_insert_mongo self documents w = (inr (true, []), w') ∧
    mg_docs w' = mg_docs w ++ with_ids documents (mg_next_id w) ∧
    length (mg_docs w') = (length (mg_docs w) + length documents)%nat ∧
    mg_next_id w' = (mg_next_id w + N.of_nat (length documents))%N ∧
    same_sqlite w w'.
Proof.
  intros Hcoll Hup Hnone.
  assert (length (with_ids documents (mg_next_id w)) = length documents) as Hlen.
  { generalize (mg_next_id w). clear. induction documents as [|d ds IH]; intros n;
      [done|]. cbn. by rewrite IH. }
  unfold bulk_insert_mongo, Collection.insert_many, same_sqlite. unfold_M.
  destruct documents as [|document documents].
  - eexists. split; [reflexivity|]. cbn. rewrite app_nil_r, N.add_0_r.
    repeat split; by try lia.
  - cbn [truthy_list]. rewrite Hcoll. cbn -[Collection.store_unordered with_ids].
    rewrite Hup, (store_unordered_without_ids _ _ _ Hnone).
    cbn -[with_ids]. eexists. split; [reflexivity|]. cbn -[with_ids].
    rewrite length_app, Hlen. done.
Qed.

Lemma bulk_insert_mongo_stores_all_witness :
  ∃ w',
    bulk_insert_mongo aux_instance [doc_btc; doc_eth] aux_world_mongo_1
      = (inr (true, []), w') ∧
    mg_docs w' = mg_docs aux_world_mongo_1
                   ++ with_ids [doc_btc; doc_eth] (mg_next_id aux_world_mongo_1) ∧
    length (mg_docs w')
      = (length (mg_docs aux_world_mongo_1) + length [doc_btc; doc_eth])%nat ∧
    mg_next_id w'
      = (mg_next_id aux_world_mongo_1 + N.of_nat (length [doc_btc; doc_eth]))%N ∧
    same_sqlite aux_world_mongo_1 w'.
Proof.
  apply (bulk_insert_mongo_stores_all aux_instance ("fx", "rates") [doc_btc; doc_eth]
           aux_world_mongo_1).
  - reflexivity.
  - reflexivity.
  - repeat constructor.
Defined.

(** The batch is not all-or-nothing: when one document carries an [_id] that
    the collection already holds, the call returns [False] and prints the
    error, yet every other document of the batch, before and after the
    refused one, is stored. *)
Theorem bulk_insert_mongo_partial (self : DB_Utils) (c : string * string)
    (before after : list pydict) (refused : pydict) (i : value) (w : world) :
  collection self = Some c →
  mg_up w = true →
  Forall (λ d : pydict, d !! "_id" = None) before →
  Forall (λ d : pydict, d !! "_id" = None) after →
  refused !! "_id" = Some i →
  Some i ∈ (λ d : pydict, d !! "_id") <$> mg_docs w →
  ∃ w',
    bulk_insert_mongo self (before ++ refused :: after) w
    = (inr (false, [LineMongoBulkInsertError (Exn PyMongoError "BulkWriteError")]), w') ∧
    mg_docs w'
    = mg_docs w ++ with_ids before (mg_next_id w)
        ++ with_ids after (mg_next_id w + N.of_nat (length before))%N ∧
    same_sqlite w w'.
Proof.
  intros Hcoll Hup Hbefore Hafter Hid Htaken.
  assert (Collection.store_unordered (before ++ refused :: after) (mg_docs w) (mg_next_id w)
          = (mg_docs w ++ with_ids before (mg_next_id w)
               ++ with_ids after (mg_next_id w + N.of_nat (length before))%N,
             (mg_next_id w + N.of_nat (length before) + N.of_nat (length after))%N,
             false)) as Hstore.
  { rewrite store_unordered_app, (store_unordered_without_ids _ _ _ Hbefore).
    cbn [fst snd Collection.store_unordered]. rewrite Hid.
    rewrite bool_decide_eq_true_2
      by (rewrite fmap_app; apply elem_of_app; by left).
    rewrite (store_unordered_without_ids _ _ _ Hafter). cbn.
    by rewrite <- app_assoc. }
  unfold bulk_insert_mongo, Collection.insert_many, same_sqlite. unfold_M.
  assert (truthy_list (Some (before ++ refused :: after)) = true) as ->
    by (by destruct before).
  rewrite Hcoll.
  destruct (before ++ refused :: after) as [|d ds] eqn:Hdocs;
    [by destruct before|].
  cbn -[Collection.store_unordered with_ids].
  rewrite Hup, Hstore. cbn -[with_ids].
  eexists. split; [reflexivity|]. done.
Qed.

Lemma bulk_insert_mongo_partial_witness :
  ∃ w',
    bulk_insert_mongo aux_instance ([doc_btc] ++ doc_with_id 0 :: [doc_eth])
                      aux_world_mongo_1
    = (inr (false, [LineMongoBulkInsertError (Exn PyMongoError "BulkWriteError")]), w') ∧
    mg_docs w'
    = mg_docs aux_world_mongo_1 ++ with_ids [doc_btc] (mg_next_id aux_world_mongo_1)
        ++ with_ids [doc_eth]
             (mg_next_id aux_world_mongo_1 + N.of_nat (length [doc_btc]))%N ∧
    same_sqlite aux_world_mongo_1 w'.
Proof.
  apply (bulk_insert_mongo_partial aux_instance ("fx", "rates") [doc_btc] [doc_eth]
           (doc_with_id 0) (VObjectId 0) aux_world_mongo_1).
  - reflexivity.
  - reflexivity.
  - repeat constructor.
  - repeat constructor.
  - reflexivity.
  - vm_compute. apply list_elem_of_here.
Defined.


(** ** Dropping the Mongo collection *)


(** After a drop, the collection starts again from nothing: the next
    [push_to_mongo_db] leaves exactly one document, that of its record,
    whatever the collection held before. *)
Theorem delete_mongo_db_then_push (self : DB_Utils) (c : string * string)
    (data : row) (w : world) :
  configured self →
  collection self = Some c →
  mg_up w = true →
  ∃ w',
    push_to_mongo_db self data (delete_mongo_db self w).2 = (inr tt, w') ∧
    mg_docs w' = [<["_id" := VObjectId (mg_next_id w)]>
                    (dict_of_pairs (zip (document_keys self) data))].
Proof.
  intros Hc Hcoll Hup.
  assert ((delete_mongo_db self w).2 = set_mongo [] (mg_next_id w) (emit EvMongo w))
    as ->.
  { unfold delete_mongo_db, Collection.drop. unfold_M. rewrite Hcoll. cbn.
    by rewrite Hup. }
  rewrite (push_to_mongo_db_up self c data) by done.
  eexists. split; [reflexivity|]. done.
Qed.

Lemma delete_mongo_db_then_push_witness :
  ∃ w',
    push_to_mongo_db aux_instance t1_eth_5 (delete_mongo_db aux_instance aux_world_mongo_1).2
      = (inr tt, w') ∧
    mg_docs w' = [<["_id" := VObjectId (mg_next_id aux_world_mongo_1)]>
                    (dict_of_pairs (zip (document_keys aux_instance) t1_eth_5))].
Proof.
  apply (delete_mongo_db_then_push aux_instance ("fx", "rates") t1_eth_5
           aux_world_mongo_1).
  - split; [left|]; reflexivity.
  - reflexivity.
  - reflexivity.
Defined.

(** ** Finding records changes nothing *)

(** Whatever the instance, the arguments and the world, [find_records]
    leaves both stores as they are, known mode or not: it is a read. *)
Theorem find_records_read_only (E : engine) (self : DB_Utils)
    (query : option predicate) (sort : option sort_spec)
    (projection : option projection) (limit : option Z) (w : world) :
  same_sqlite w (find_records E self query sort projection limit w).2 ∧
  same_mongo w (find_records E self query sort projection limit w).2.
Proof.
  unfold find_records, same_sqlite, same_mongo.
  destruct (bool_decide (mode self = "aux") || bool_decide (mode self = "main"));
    [|done].
  destruct (collection self) as [c|] eqn:Hcoll.
  - rewrite (find_mongo_run E self c) by done.
    destruct (mg_up w) eqn:Hup; [destruct (mongo_run E _ _)|]; cbn; by rewrite ?Hup.
  - rewrite find_sqlite_run. destruct (sqlite_select E _ _); done.
Qed.

(** Arguments that Python takes for false are treated as absent by both back
    ends: an empty sort list and a limit of zero give the same run as no sort
    and no limit, and no query gives the same run as the empty filter. *)
Theorem find_records_falsy_arguments (E : engine) (self : DB_Utils)
    (query : option predicate) (sort : option sort_spec)
    (projection : option projection) (limit : option Z) (w : world) :
  find_records E self query (Some []) projection (Some 0) w
    = find_records E self query None projection None w ∧
  find_records E self None sort projection limit w
    = find_records E self (Some (PredDict ∅)) sort projection limit w.
Proof.
  unfold find_records.
  destruct (bool_decide (mode self = "aux") || bool_decide (mode self = "main"));
    [|done].
  destruct (collection self) as [c|] eqn:Hcoll.
  - rewrite !(find_mongo_run E self c) by done. done.
  - rewrite !find_sqlite_run. done.
Qed.
